(** * TravelAgent.py: the retrieval core of [DestinationInfoRetriever]

    A shallow embedding of [_build_knowledge_base], its two text sources
    and [retrieve_relevant_info], with the Python exceptions, the mutable
    object and the calls to the external collaborators (SerpAPI, the
    sentence encoder, the FAISS flat index) made explicit. *)

From Stdlib Require Import List String Ascii ZArith Lia Bool Permutation.
Import ListNotations.
Local Open Scope Z_scope.
Local Open Scope list_scope.

(** ** Python values and exceptions *)

Module Py.

(** An exception is represented by [str(e)], the only thing the handlers
    of the source look at. *)
Definition exn := string.

Inductive result (A : Type) : Type :=
| Ok (a : A)
| Raise (e : exn).
Arguments Ok {A} a.
Arguments Raise {A} e.

Definition IndexError : exn := "list index out of range"%string.

(** [l[i]] on a Python list: a negative index counts from the end, and
    an index outside [-len(l), len(l)) raises [IndexError]. *)
Definition getitem {A : Type} (l : list A) (i : Z) : result A :=
  let n := Z.of_nat (List.length l) in
  let j := if i <? 0 then i + n else i in
  if (0 <=? j) && (j <? n)
  then match nth_error l (Z.to_nat j) with
       | Some a => Ok a
       | None => Raise IndexError
       end
  else Raise IndexError.

(** [d.get(key, default)] for a key that may be absent. *)
Definition get {A : Type} (field : option A) (default : A) : A :=
  match field with
  | Some a => a
  | None => default
  end.

(** [l[:n]] for [n >= 0]. *)
Definition slice_to {A : Type} (n : nat) (l : list A) : list A := firstn n l.

Definition newline : string := String (ascii_of_nat 10) EmptyString.

(** [sep.join(l)]. *)
Definition join (sep : string) (l : list string) : string := String.concat sep l.

End Py.
Import Py.

(** ** The external collaborators *)

(** The [params] dict handed to [GoogleSearch]. *)
Record params : Type := mk_params {
  engine : string;
  q : string;
  api_key : string
}.

(** One entry of ['organic_results']; only ['snippet'] is read. *)
Record organic_result : Type := mk_organic { snippet : option string }.

(** The dict returned by [search.get_dict()]; only ['organic_results'] is
    read by the two text sources. *)
Record serp_dict : Type := mk_serp { organic_results : option (list organic_result) }.

(** What the source does not contain: the search API, the sentence encoder
    and the ranking computed inside [faiss.IndexFlatL2.search].  The
    encoder returns one row for each text it is given, in order.  The
    ranking lists the stored positions from nearest to farthest; all that
    is used of it is that it lists every stored position once. *)
Class Collaborators : Type := {
  vec : Type;
  get_dict : params -> result serp_dict;
  encode : list string -> result (list vec);
  encode_rows : forall (texts : list string) (x : list vec),
      encode texts = Ok x -> List.length x = List.length texts;
  nearest : list vec -> vec -> list nat;
  nearest_perm : forall (xs : list vec) (v : vec),
      Permutation (nearest xs v) (seq 0 (List.length xs))
}.

(** ** faiss.IndexFlatL2 *)

Module Faiss.
Section Index.
Context {C : Collaborators}.

(** The flat index is the sequence of its stored rows. *)
Definition IndexFlatL2 : Type := list vec.

Definition empty : IndexFlatL2 := [].

Definition ntotal (ix : IndexFlatL2) : nat := List.length ix.

(** [index.add(x)]: the rows of [x] are appended, in order. *)
Definition add (ix : IndexFlatL2) (x : list vec) : IndexFlatL2 := ix ++ x.

(** As the library documents it, a row of labels always has [k] entries:
    the labels of the neighbours found, then [-1] for every missing one. *)
Definition pad_labels (k : nat) (found : list Z) : list Z :=
  found ++ repeat (-1) (k - List.length found).

Definition search_row (ix : IndexFlatL2) (k : nat) (v : vec) : list Z :=
  pad_labels k (map Z.of_nat (firstn k (nearest ix v))).

(** [index.search(x, k)]: one row of labels for each query row of [x]
    (the distances are dropped by the only caller). *)
Definition search (ix : IndexFlatL2) (x : list vec) (k : nat) : list (list Z) :=
  map (search_row ix k) x.

End Index.
End Faiss.

(** ** The object, the observable events and the monad *)

Section Retriever.
Context {C : Collaborators}.

Record DestinationInfoRetriever : Type := mk_retriever {
  serpapi_key : string;
  index : Faiss.IndexFlatL2;
  knowledge_base : list string
}.

(** Calls that leave the object, in the order they happen. *)
Inductive event : Type :=
| EvGetDict (p : params)
| EvEncode (texts : list string)
| EvIndexAdd (rows : nat)
| EvIndexSearch (k : nat)
| EvPrint (line : string).

Record state : Type := mk_state {
  self : DestinationInfoRetriever;
  trace : list event
}.

(** A computation runs on the state and either returns or raises; what it
    did to the state before raising stays done. *)
Definition M (A : Type) : Type := state -> result A * state.

Definition ret {A : Type} (a : A) : M A := fun st => (Ok a, st).

Definition bind {A B : Type} (m : M A) (k : A -> M B) : M B :=
  fun st =>
    match m st with
    | (Ok a, st') => k a st'
    | (Raise e, st') => (Raise e, st')
    end.

Definition lift {A : Type} (r : result A) : M A := fun st => (r, st).

(** [try: body except Exception as e: handler(e)]. *)
Definition try_except {A : Type} (body : M A) (handler : exn -> M A) : M A :=
  fun st =>
    match body st with
    | (Ok a, st') => (Ok a, st')
    | (Raise e, st') => handler e st'
    end.

Definition emit (ev : event) : M unit :=
  fun st => (Ok tt, mk_state (self st) (trace st ++ [ev])).

Definition get_self : M DestinationInfoRetriever := fun st => (Ok (self st), st).

Definition set_index (ix : Faiss.IndexFlatL2) : M unit :=
  fun st =>
    (Ok tt, mk_state (mk_retriever (serpapi_key (self st)) ix (knowledge_base (self st)))
                     (trace st)).

Definition set_knowledge_base (kb : list string) : M unit :=
  fun st =>
    (Ok tt, mk_state (mk_retriever (serpapi_key (self st)) (index (self st)) kb)
                     (trace st)).

Fixpoint mapM {A B : Type} (f : A -> M B) (l : list A) : M (list B) :=
  match l with
  | [] => ret []
  | a :: l' => bind (f a) (fun b => bind (mapM f l') (fun bs => ret (b :: bs)))
  end.

End Retriever.

Declare Scope py_scope.
Delimit Scope py_scope with py.
Notation "x <- m ;; k" := (bind m (fun x => k))
  (at level 61, m at next level, right associativity) : py_scope.
Notation "m ;;; k" := (bind m (fun _ => k))
  (at level 61, right associativity) : py_scope.
Local Open Scope py_scope.

(** ** The methods of [DestinationInfoRetriever] *)

Section Methods.
Context {C : Collaborators}.

(** [__init__]: an empty flat index and an empty knowledge base. *)
Definition __init__ (key : string) : DestinationInfoRetriever :=
  mk_retriever key Faiss.empty [].

(** [GoogleSearch(params).get_dict()]. *)
Definition GoogleSearch_get_dict (p : params) : M serp_dict :=
  emit (EvGetDict p) ;;; lift (get_dict p).

(** [[result.get('snippet', '') for result in
     results.get('organic_results', [])[:5]]]. *)
Definition snippets (results : serp_dict) : list string :=
  map (fun r => get (snippet r) EmptyString)
      (slice_to 5 (get (organic_results results) [])).

Definition _get_destination_attractions (destination : string) : M (list string) :=
  try_except
    (s <- get_self ;;
     let p := mk_params "google" ("top attractions in " ++ destination)%string (serpapi_key s) in
     results <- GoogleSearch_get_dict p ;;
     let attractions := snippets results in
     ret attractions)
    (fun _ => ret []).

Definition _get_destination_restaurants (destination : string) : M (list string) :=
  try_except
    (s <- get_self ;;
     let p := mk_params "google" ("top restaurants in " ++ destination)%string (serpapi_key s) in
     results <- GoogleSearch_get_dict p ;;
     let restaurants := snippets results in
     ret restaurants)
    (fun _ => ret []).

(** [self.encoder.encode(texts)]. *)
Definition encoder_encode (texts : list string) : M (list vec) :=
  emit (EvEncode texts) ;;; lift (encode texts).

(** [str(e)] of the [ValueError] that [add] raises when it unpacks the
    shape of an array of one dimension. *)
Definition ValueError : exn := "not enough values to unpack (expected 2, got 1)"%string.

(** [self.index.add(np.array(embeddings))]: the one index object of
    [__init__] is mutated.  The array made of no row has one dimension,
    and [add], which unpacks two, raises before anything is stored. *)
Definition index_add (x : list vec) : M unit :=
  s <- get_self ;;
  emit (EvIndexAdd (List.length x)) ;;;
  match x with
  | [] => lift (Raise ValueError)
  | _ :: _ => set_index (Faiss.add (index s) x)
  end.

(** [self.index.search(x, k)], labels only. *)
Definition index_search (x : list vec) (k : nat) : M (list (list Z)) :=
  s <- get_self ;;
  emit (EvIndexSearch k) ;;;
  ret (Faiss.search (index s) x k).

Definition print (line : string) : M unit := emit (EvPrint line).

Definition _build_knowledge_base (destination : string) : M unit :=
  try_except
    (attractions <- _get_destination_attractions destination ;;
     restaurants <- _get_destination_restaurants destination ;;
     set_knowledge_base (attractions ++ restaurants) ;;;
     s <- get_self ;;
     embeddings <- encoder_encode (knowledge_base s) ;;
     index_add embeddings)
    (fun e => print ("Error building knowledge base: " ++ e)%string).

Definition retrieve_relevant_info (query : string) : M string :=
  try_except
    (query_embedding <- encoder_encode [query] ;;
     indices <- index_search query_embedding 3 ;;
     row <- lift (getitem indices 0) ;;
     relevant_info <- mapM (fun i => s <- get_self ;; lift (getitem (knowledge_base s) i)) row ;;
     ret (join newline relevant_info))
    (fun e => ret ("Error retrieving information: " ++ e)%string).

End Methods.

(** ** Exact search over integer vectors, and scripted collaborators

    A concrete set of collaborators on which the methods can be run: rows
    are integer vectors, the ranking is the exhaustive scan of a flat L2
    index, the search API answers from a table and the encoder is a
    deterministic stand-in. *)

Module Exact.

Definition l2sqr (a b : list Z) : Z :=
  fold_right Z.add 0 (map (fun p => (fst p - snd p) * (fst p - snd p)) (combine a b)).

(** Insert position [i] in front of the first position that is not
    strictly nearer. *)
Fixpoint insert (d : nat -> Z) (i : nat) (l : list nat) : list nat :=
  match l with
  | [] => [i]
  | j :: l' => if d i <=? d j then i :: l else j :: insert d i l'
  end.

Definition rank (xs : list (list Z)) (v : list Z) : list nat :=
  fold_right (insert (fun i => l2sqr (nth i xs []) v)) [] (seq 0 (List.length xs)).

(** The answers of the search API, keyed by the query string. *)
Definition web := list (string * result serp_dict).

Fixpoint lookup (w : web) (query : string) : result serp_dict :=
  match w with
  | [] => Ok (mk_serp None)
  | (k, r) :: w' => if String.eqb k query then r else lookup w' query
  end.

Definition organic (texts : list string) : result serp_dict :=
  Ok (mk_serp (Some (map (fun t => mk_organic (Some t)) texts))).

(** One row per text: its length, as a vector of dimension one. *)
Definition encode_length (texts : list string) : result (list (list Z)) :=
  Ok (map (fun t => [Z.of_nat (String.length t)]) texts).

Definition encode_down (texts : list string) : result (list (list Z)) :=
  Raise "model unavailable"%string.

(** The encoder works on a corpus and is unavailable for any other call. *)
Definition encode_only (corpus : list string) (texts : list string)
  : result (list (list Z)) :=
  if list_eq_dec string_dec texts corpus then encode_length texts
  else Raise "model unavailable"%string.

Lemma insert_perm (d : nat -> Z) (i : nat) (l : list nat) :
  Permutation (insert d i l) (i :: l).
Proof.
  induction l as [|j l IH]; simpl.
  - apply Permutation_refl.
  - destruct (d i <=? d j).
    + apply Permutation_refl.
    + eapply perm_trans; [apply perm_skip, IH | apply perm_swap].
Qed.

Lemma rank_perm (xs : list (list Z)) (v : list Z) :
  Permutation (rank xs v) (seq 0 (List.length xs)).
Proof.
  unfold rank. induction (seq 0 (List.length xs)) as [|i l IH]; simpl.
  - apply Permutation_refl.
  - eapply perm_trans; [apply insert_perm | apply perm_skip, IH].
Qed.

Lemma encode_length_rows (texts : list string) (x : list (list Z)) :
  encode_length texts = Ok x -> List.length x = List.length texts.
Proof.
  unfold encode_length. intros H. inversion H. apply length_map.
Qed.

Lemma encode_down_rows (texts : list string) (x : list (list Z)) :
  encode_down texts = Ok x -> List.length x = List.length texts.
Proof. unfold encode_down. discriminate. Qed.

Lemma encode_only_rows (corpus texts : list string) (x : list (list Z)) :
  encode_only corpus texts = Ok x -> List.length x = List.length texts.
Proof.
  unfold encode_only. destruct (list_eq_dec string_dec texts corpus).
  - apply encode_length_rows.
  - discriminate.
Qed.

Definition collaborators (w : web)
    (enc : list string -> result (list (list Z)))
    (enc_rows : forall texts x, enc texts = Ok x -> List.length x = List.length texts)
  : Collaborators :=
  {| vec := list Z;
     get_dict := fun p => lookup w (q p);
     encode := enc;
     encode_rows := enc_rows;
     nearest := rank;
     nearest_perm := rank_perm |}.

(** One attraction snippet for Paris, one for Rome, nothing for
    Atlantis, and a restaurants request for Rome that fails. *)
Definition atlas : web :=
  [ ("top attractions in Paris"%string, organic ["Eiffel Tower"%string]);
    ("top attractions in Rome"%string, organic ["Colosseum"%string]);
    ("top restaurants in Rome"%string, Raise "HTTP 429"%string) ].

Definition up : Collaborators := collaborators atlas encode_length encode_length_rows.
Definition down : Collaborators := collaborators atlas encode_down encode_down_rows.

(** The encoder answers for the corpus of Paris and for nothing else. *)
Definition flaky : Collaborators :=
  collaborators atlas (encode_only ["Eiffel Tower"%string])
                (encode_only_rows ["Eiffel Tower"%string]).

End Exact.

(** ** What a build and a source leave behind, in closed form *)

Section Facts.
Context {C : Collaborators}.

Definition attractions_params (key destination : string) : params :=
  mk_params "google" ("top attractions in " ++ destination)%string key.

Definition restaurants_params (key destination : string) : params :=
  mk_params "google" ("top restaurants in " ++ destination)%string key.

(** The text a source hands back for a request: the snippets of the
    answer, or nothing when the request raised. *)
Definition fetched (p : params) : list string :=
  match get_dict p with
  | Ok results => snippets results
  | Raise _ => []
  end.

Definition gathered (key destination : string) : list string :=
  fetched (attractions_params key destination)
  ++ fetched (restaurants_params key destination).

Definition built (destination : string) (st : state) : state :=
  let key := serpapi_key (self st) in
  let kb := gathered key destination in
  let tr := ((trace st ++ [EvGetDict (attractions_params key destination)])
               ++ [EvGetDict (restaurants_params key destination)])
              ++ [EvEncode kb] in
  match encode kb with
  | Ok [] =>
      mk_state (mk_retriever key (index (self st)) kb)
               ((tr ++ [EvIndexAdd 0])
                  ++ [EvPrint ("Error building knowledge base: " ++ ValueError)%string])
  | Ok x =>
      mk_state (mk_retriever key (Faiss.add (index (self st)) x) kb)
               (tr ++ [EvIndexAdd (List.length x)])
  | Raise e =>
      mk_state (mk_retriever key (index (self st)) kb)
               (tr ++ [EvPrint ("Error building knowledge base: " ++ e)%string])
  end.

Definition encoder_calls (tr : list event) : list (list string) :=
  flat_map (fun ev => match ev with EvEncode texts => [texts] | _ => [] end) tr.

Definition index_adds (tr : list event) : list nat :=
  flat_map (fun ev => match ev with EvIndexAdd rows => [rows] | _ => [] end) tr.

(** The state a computation leaves, and the value it returns. *)
Definition after {A : Type} (m : M A) (st : state) : state := snd (m st).
Definition outcome {A : Type} (m : M A) (st : state) : result A := fst (m st).

Lemma run_attractions (destination : string) (st : state) :
  _get_destination_attractions destination st
  = (Ok (fetched (attractions_params (serpapi_key (self st)) destination)),
     mk_state (self st)
              (trace st ++ [EvGetDict (attractions_params (serpapi_key (self st)) destination)])).
Proof.
  unfold _get_destination_attractions, try_except, bind, get_self,
    GoogleSearch_get_dict, emit, lift, ret, fetched, attractions_params; simpl.
  destruct (get_dict _); reflexivity.
Qed.

Lemma run_restaurants (destination : string) (st : state) :
  _get_destination_restaurants destination st
  = (Ok (fetched (restaurants_params (serpapi_key (self st)) destination)),
     mk_state (self st)
              (trace st ++ [EvGetDict (restaurants_params (serpapi_key (self st)) destination)])).
Proof.
  unfold _get_destination_restaurants, try_except, bind, get_self,
    GoogleSearch_get_dict, emit, lift, ret, fetched, restaurants_params; simpl.
  destruct (get_dict _); reflexivity.
Qed.

Lemma run_build (destination : string) (st : state) :
  _build_knowledge_base destination st = (Ok tt, built destination st).
Proof.
  unfold _build_knowledge_base, try_except.
  unfold bind at 1. rewrite run_attractions.
  unfold bind at 1. rewrite run_restaurants. simpl.
  unfold bind, set_knowledge_base, get_self, encoder_encode, index_add,
    set_index, print, emit, lift, built, gathered; simpl.
  destruct (encode _) as [[|v x]|e]; reflexivity.
Qed.

Lemma snippets_length (results : serp_dict) : (List.length (snippets results) <= 5)%nat.
Proof.
  unfold snippets, slice_to. rewrite length_map, length_firstn. lia.
Qed.

Lemma fetched_length (p : params) : (List.length (fetched p) <= 5)%nat.
Proof.
  unfold fetched. destruct (get_dict p); [apply snippets_length | simpl; lia].
Qed.

Lemma encoder_calls_app (tr tr' : list event) :
  encoder_calls (tr ++ tr') = encoder_calls tr ++ encoder_calls tr'.
Proof. apply flat_map_app. Qed.

Lemma index_adds_app (tr tr' : list event) :
  index_adds (tr ++ tr') = index_adds tr ++ index_adds tr'.
Proof. apply flat_map_app. Qed.

(** Every build appends to the one index of [__init__]: when the encoder
    returns, the index grows by the size of the new knowledge base. *)
Lemma build_index_grows (destination : string) (st : state) (x : list vec) :
  encode (gathered (serpapi_key (self st)) destination) = Ok x ->
  Faiss.ntotal (index (self (after (_build_knowledge_base destination) st)))
  = (Faiss.ntotal (index (self st))
     + List.length (knowledge_base (self (after (_build_knowledge_base destination) st))))%nat.
Proof.
  intros Hx. unfold after. rewrite run_build. simpl. unfold built. rewrite Hx.
  pose proof (encode_rows _ _ Hx) as Hrows.
  destruct x as [|v x]; simpl; unfold Faiss.ntotal.
  - rewrite <- Hrows. simpl. rewrite Nat.add_0_r. reflexivity.
  - unfold Faiss.add. rewrite length_app, <- Hrows. reflexivity.
Qed.

End Facts.

(** ** The two text sources, by name *)

Inductive source : Type := Attractions | Restaurants.

Definition other (s : source) : source :=
  match s with
  | Attractions => Restaurants
  | Restaurants => Attractions
  end.

Section Sources.
Context {C : Collaborators}.

Definition source_params (s : source) (key destination : string) : params :=
  match s with
  | Attractions => attractions_params key destination
  | Restaurants => restaurants_params key destination
  end.

Definition run_source (s : source) (destination : string) : M (list string) :=
  match s with
  | Attractions => _get_destination_attractions destination
  | Restaurants => _get_destination_restaurants destination
  end.

Definition fresh (key : string) : state := mk_state (__init__ key) [].

End Sources.

(** ** Properties of a build *)

Section BuildProperties.
Context {C : Collaborators}.

(** C7: when one text source raises and the other one answers, the failing
    source hands back no entry, the build returns normally and the
    knowledge base is exactly the text of the remaining source. *)
Theorem C7_failing_source_is_isolated
    (s : source) (destination : string) (st : state) (e : exn) (results : serp_dict) :
  get_dict (source_params s (serpapi_key (self st)) destination) = Raise e ->
  get_dict (source_params (other s) (serpapi_key (self st)) destination) = Ok results ->
  outcome (run_source s destination) st = Ok []
  /\ outcome (run_source (other s) destination) st = Ok (snippets results)
  /\ outcome (_build_knowledge_base destination) st = Ok tt
  /\ knowledge_base (self (after (_build_knowledge_base destination) st))
     = snippets results.
Proof.
  intros Hfail Hok. unfold outcome, after. rewrite run_build.
  destruct s; simpl in Hfail, Hok; simpl run_source;
    rewrite run_attractions, run_restaurants; simpl;
    unfold fetched; rewrite Hfail, Hok;
    (repeat split; try reflexivity);
    unfold built, gathered, fetched; rewrite Hfail, Hok;
    destruct (encode _) as [[|v x]|err]; simpl; auto using app_nil_r.
Qed.

(** C8: the knowledge base of a build is the attractions followed by the
    restaurants, each in the order of the answer's items; the encoder is
    called once, on that whole list; [add] is called once, with the rows
    the encoder returned; and afterwards the index holds the rows it held
    before followed by the rows returned, in the order returned (no row
    when the encoder raised or returned none). *)
Theorem C8_corpus_order_and_single_batch (destination : string) (st : state) :
  exists (attractions restaurants : list string) (st1 st2 st' : state),
    _get_destination_attractions destination st = (Ok attractions, st1)
    /\ _get_destination_restaurants destination st1 = (Ok restaurants, st2)
    /\ attractions = fetched (attractions_params (serpapi_key (self st)) destination)
    /\ restaurants = fetched (restaurants_params (serpapi_key (self st)) destination)
    /\ _build_knowledge_base destination st = (Ok tt, st')
    /\ knowledge_base (self st') = attractions ++ restaurants
    /\ encoder_calls (trace st') = encoder_calls (trace st) ++ [attractions ++ restaurants]
    /\ index (self st')
       = index (self st)
           ++ match encode (attractions ++ restaurants) with
              | Ok x => x
              | Raise _ => []
              end
    /\ index_adds (trace st')
       = index_adds (trace st)
           ++ match encode (attractions ++ restaurants) with
              | Ok x => [List.length x]
              | Raise _ => []
              end.
Proof.
  do 5 eexists.
  split; [apply run_attractions|].
  split; [apply run_restaurants|].
  split; [reflexivity|]. split; [reflexivity|].
  split; [apply run_build|].
  unfold built, gathered; simpl.
  destruct (encode _) as [[|v x]|err]; simpl;
    rewrite !encoder_calls_app, !index_adds_app; simpl;
    unfold Faiss.add; rewrite !app_nil_r; auto.
Qed.

(** C10: a build keeps at most the first five snippets of each source, so
    its knowledge base has at most ten entries. *)
Theorem C10_knowledge_base_at_most_ten (destination : string) (st : state) :
  exists attractions restaurants : list string,
    outcome (_get_destination_attractions destination) st = Ok attractions
    /\ outcome (_get_destination_restaurants destination) st = Ok restaurants
    /\ (List.length attractions <= 5)%nat
    /\ (List.length restaurants <= 5)%nat
    /\ knowledge_base (self (after (_build_knowledge_base destination) st))
       = attractions ++ restaurants
    /\ (List.length (knowledge_base (self (after (_build_knowledge_base destination) st)))
        <= 10)%nat.
Proof.
  exists (fetched (attractions_params (serpapi_key (self st)) destination)),
         (fetched (restaurants_params (serpapi_key (self st)) destination)).
  unfold outcome, after. rewrite run_attractions, run_restaurants, run_build.
  pose proof (fetched_length (attractions_params (serpapi_key (self st)) destination)).
  pose proof (fetched_length (restaurants_params (serpapi_key (self st)) destination)).
  assert (Hkb : knowledge_base (self (built destination st))
                = gathered (serpapi_key (self st)) destination)
    by (unfold built; destruct (encode _) as [[|v x]|err]; reflexivity).
  simpl. rewrite Hkb. unfold gathered. rewrite length_app.
  repeat split; auto; lia.
Qed.

(** C5 (amended): when the encoder raises on the gathered text, the build
    does not raise: the failure is caught and printed, nothing is added
    to the index, and the index is the one from before the build. *)
Theorem C5_embedding_failure_is_caught (destination : string) (st : state) (e : exn) :
  encode (gathered (serpapi_key (self st)) destination) = Raise e ->
  outcome (_build_knowledge_base destination) st = Ok tt
  /\ index (self (after (_build_knowledge_base destination) st)) = index (self st)
  /\ index_adds (trace (after (_build_knowledge_base destination) st))
     = index_adds (trace st)
  /\ exists tr : list event,
      trace (after (_build_knowledge_base destination) st)
      = tr ++ [EvPrint ("Error building knowledge base: " ++ e)%string].
Proof.
  intros He. unfold outcome, after. rewrite run_build. simpl.
  unfold built. rewrite He. simpl.
  repeat split.
  - rewrite !index_adds_app. simpl. rewrite !app_nil_r. reflexivity.
  - eexists. reflexivity.
Qed.

(** C6 (amended): when the encoder raises on the query, the query does not
    raise: it returns the text [Error retrieving information: ] followed
    by the error's message, and the index and the knowledge base are
    unchanged. *)
Theorem C6_query_embedding_failure_is_returned (query : string) (st : state) (e : exn) :
  encode [query] = Raise e ->
  outcome (retrieve_relevant_info query) st
  = Ok ("Error retrieving information: " ++ e)%string
  /\ self (after (retrieve_relevant_info query) st) = self st.
Proof.
  intros He. unfold outcome, after, retrieve_relevant_info, try_except, bind,
    encoder_encode, emit, lift, ret. simpl. rewrite He. simpl. split; reflexivity.
Qed.

End BuildProperties.

(** ** A query on fewer than three rows, whatever the collaborators *)

Section ShortIndex.
Context {C : Collaborators}.

Lemma nearest_empty (v : vec) : nearest [] v = [].
Proof. apply Permutation_nil. apply Permutation_sym. apply (nearest_perm [] v). Qed.

Lemma nearest_single (x v : vec) : nearest [x] v = [0%nat].
Proof.
  apply Permutation_length_1_inv. apply Permutation_sym. apply (nearest_perm [x] v).
Qed.

Lemma encode_one_row (query : string) (x : list vec) :
  encode [query] = Ok x -> exists v : vec, x = [v].
Proof.
  intros Hx. apply encode_rows in Hx.
  destruct x as [|v [|w x]]; try discriminate Hx. exists v. reflexivity.
Qed.

(** With nothing stored and nothing in the knowledge base, every query
    returns an error text: the encoder's, or the [IndexError] of the first
    padding label. *)
Lemma query_on_empty_returns_error_text (query : string) (st : state) :
  index (self st) = [] ->
  knowledge_base (self st) = [] ->
  exists e : exn,
    outcome (retrieve_relevant_info query) st
    = Ok ("Error retrieving information: " ++ e)%string.
Proof.
  intros Hix Hkb.
  unfold outcome, retrieve_relevant_info, try_except, bind, encoder_encode,
    index_search, get_self, emit, lift, ret. simpl.
  destruct (encode [query]) as [x|e] eqn:Hx; simpl.
  - destruct (encode_one_row _ _ Hx) as [v ->].
    rewrite Hix. unfold Faiss.search, Faiss.search_row. simpl.
    rewrite nearest_empty. simpl.
    unfold bind, get_self, lift. simpl. rewrite Hkb. simpl.
    exists IndexError. reflexivity.
  - exists e. reflexivity.
Qed.

(** With one row stored and one entry in the knowledge base, a query whose
    embedding succeeds returns that entry three times. *)
Lemma query_on_single_row_repeats_entry
    (query text : string) (st : state) (x0 : vec) (x : list vec) :
  index (self st) = [x0] ->
  knowledge_base (self st) = [text] ->
  encode [query] = Ok x ->
  outcome (retrieve_relevant_info query) st = Ok (join newline [text; text; text]).
Proof.
  intros Hix Hkb Hx.
  unfold outcome, retrieve_relevant_info, try_except, bind, encoder_encode,
    index_search, get_self, emit, lift, ret. simpl.
  rewrite Hx. simpl. destruct (encode_one_row _ _ Hx) as [v ->].
  rewrite Hix. unfold Faiss.search, Faiss.search_row. simpl.
  rewrite nearest_single. simpl.
  unfold bind, get_self, lift, ret. simpl. rewrite Hkb. simpl. reflexivity.
Qed.

End ShortIndex.

(** ** The methods run on the scripted collaborators *)

Section Scenarios.
Local Open Scope string_scope.

Let colosseum : serp_dict := mk_serp (Some [mk_organic (Some "Colosseum")]).

Lemma C7_failing_source_is_isolated_witness :
  @get_dict Exact.up (source_params Restaurants "key" "Rome") = Raise "HTTP 429"
  /\ @get_dict Exact.up (source_params Attractions "key" "Rome") = Ok colosseum
  /\ outcome (C:=Exact.up) (run_source Restaurants "Rome") (fresh "key") = Ok []
  /\ outcome (C:=Exact.up) (run_source Attractions "Rome") (fresh "key") = Ok ["Colosseum"]
  /\ outcome (C:=Exact.up) (_build_knowledge_base "Rome") (fresh "key") = Ok tt
  /\ knowledge_base (self (after (C:=Exact.up) (_build_knowledge_base "Rome") (fresh "key")))
     = ["Colosseum"].
Proof.
  split; [reflexivity|]. split; [reflexivity|].
  exact (C7_failing_source_is_isolated (C:=Exact.up)
           Restaurants "Rome" (fresh "key") "HTTP 429" colosseum eq_refl eq_refl).
Defined.

(** As C5 is worded, a build whose encoder raises would itself raise and
    leave the object as it was.  With the encoder down, the build for
    Paris returns normally. *)
Lemma C5_counterexample :
  ~ (forall e : exn,
        @encode Exact.down (gathered (C:=Exact.down) "key" "Paris") = Raise e ->
        (exists err : exn,
            outcome (C:=Exact.down) (_build_knowledge_base "Paris") (fresh "key") = Raise err)
        /\ self (after (C:=Exact.down) (_build_knowledge_base "Paris") (fresh "key"))
           = self (fresh (C:=Exact.down) "key")).
Proof.
  intros H. destruct (H "model unavailable" eq_refl) as [[err Herr] _].
  vm_compute in Herr. discriminate Herr.
Qed.

Lemma C5_embedding_failure_is_caught_witness :
  @encode Exact.down (gathered (C:=Exact.down) "key" "Paris") = Raise "model unavailable"
  /\ outcome (C:=Exact.down) (_build_knowledge_base "Paris") (fresh "key") = Ok tt
  /\ index (self (after (C:=Exact.down) (_build_knowledge_base "Paris") (fresh "key")))
     = index (self (fresh (C:=Exact.down) "key"))
  /\ index_adds (trace (after (C:=Exact.down) (_build_knowledge_base "Paris") (fresh "key")))
     = index_adds (trace (fresh (C:=Exact.down) "key"))
  /\ exists tr : list event,
      trace (after (C:=Exact.down) (_build_knowledge_base "Paris") (fresh "key"))
      = (tr ++ [EvPrint "Error building knowledge base: model unavailable"])%list.
Proof.
  split; [reflexivity|].
  exact (C5_embedding_failure_is_caught (C:=Exact.down)
           "Paris" (fresh "key") "model unavailable" eq_refl).
Defined.

(** The state a failed build leaves is not the one it found: the
    knowledge base was assigned before the encoder was called. *)
Lemma failed_build_replaces_knowledge_base :
  knowledge_base (self (after (C:=Exact.down) (_build_knowledge_base "Paris") (fresh "key")))
  = ["Eiffel Tower"]
  /\ knowledge_base (self (fresh (C:=Exact.down) "key")) = [].
Proof. split; reflexivity. Qed.

(** As C6 is worded, a query whose embedding fails would raise.  After a
    build for Paris, with the encoder unavailable for the query, the
    query returns a string. *)
Lemma C6_counterexample :
  ~ (forall e : exn,
        @encode Exact.flaky ["food"] = Raise e ->
        (exists err : exn,
            outcome (C:=Exact.flaky) (retrieve_relevant_info "food")
              (after (_build_knowledge_base "Paris") (fresh "key")) = Raise err)
        /\ index (self (after (C:=Exact.flaky) (retrieve_relevant_info "food")
                          (after (_build_knowledge_base "Paris") (fresh "key"))))
           = index (self (after (C:=Exact.flaky) (_build_knowledge_base "Paris") (fresh "key")))).
Proof.
  intros H. destruct (H "model unavailable" eq_refl) as [[err Herr] _].
  vm_compute in Herr. discriminate Herr.
Qed.

Lemma C6_query_embedding_failure_is_returned_witness :
  @encode Exact.flaky ["food"] = Raise "model unavailable"
  /\ outcome (C:=Exact.flaky) (retrieve_relevant_info "food")
       (after (_build_knowledge_base "Paris") (fresh "key"))
     = Ok "Error retrieving information: model unavailable"
  /\ self (after (C:=Exact.flaky) (retrieve_relevant_info "food")
             (after (_build_knowledge_base "Paris") (fresh "key")))
     = self (after (C:=Exact.flaky) (_build_knowledge_base "Paris") (fresh "key")).
Proof.
  split; [reflexivity|].
  exact (C6_query_embedding_failure_is_returned (C:=Exact.flaky)
           "food" (after (_build_knowledge_base "Paris") (fresh "key"))
           "model unavailable" eq_refl).
Defined.

(** C1: a build for Paris followed by a build for Rome, on the object
    [__init__] made.  After the first build the index and the knowledge
    base both have one entry; the second build assigns a new knowledge base
    of one entry and adds its row to the same index, which then holds two
    rows. *)
Theorem C1_second_build_index_outgrows_knowledge_base :
  Faiss.ntotal (index (self (after (C:=Exact.up) (_build_knowledge_base "Paris")
                               (fresh "key")))) = 1%nat
  /\ List.length (knowledge_base (self (after (C:=Exact.up) (_build_knowledge_base "Paris")
                                          (fresh "key")))) = 1%nat
  /\ outcome (C:=Exact.up) (_build_knowledge_base "Rome")
       (after (_build_knowledge_base "Paris") (fresh "key")) = Ok tt
  /\ Faiss.ntotal (index (self (after (C:=Exact.up) (_build_knowledge_base "Rome")
                                  (after (_build_knowledge_base "Paris") (fresh "key")))))
     = 2%nat
  /\ List.length (knowledge_base
                    (self (after (C:=Exact.up) (_build_knowledge_base "Rome")
                             (after (_build_knowledge_base "Paris") (fresh "key")))))
     = 1%nat.
Proof. repeat split; vm_compute; reflexivity. Qed.

(** C2: after the build for Paris and then the build for Rome, the row
    embedded for Paris is still stored at position 0 of the index, in front
    of the row for Rome, while the knowledge base holds the text for Rome
    only; a query then finds a position that the knowledge base does not
    have and returns the error text instead of text gathered for Rome. *)
Theorem C2_second_build_keeps_first_index :
  index (self (after (C:=Exact.up) (_build_knowledge_base "Paris") (fresh "key")))
  = [[12]]
  /\ index (self (after (C:=Exact.up) (_build_knowledge_base "Rome")
                    (after (_build_knowledge_base "Paris") (fresh "key"))))
     = [[12]; [9]]
  /\ knowledge_base (self (after (C:=Exact.up) (_build_knowledge_base "Rome")
                             (after (_build_knowledge_base "Paris") (fresh "key"))))
     = ["Colosseum"]
  /\ outcome (C:=Exact.up) (retrieve_relevant_info "food")
       (after (_build_knowledge_base "Rome")
          (after (_build_knowledge_base "Paris") (fresh "key")))
     = Ok "Error retrieving information: list index out of range".
Proof. repeat split; vm_compute; reflexivity. Qed.

(** C3: a query on an index of one row, with [k] fixed at 3.  The row of
    labels is the one position found and two [-1]; [-1] indexes the last
    entry of the knowledge base, so three entries are joined, not one. *)
Theorem C3_short_index_yields_three_entries :
  Faiss.ntotal (index (self (after (C:=Exact.up) (_build_knowledge_base "Rome")
                               (fresh "key")))) = 1%nat
  /\ knowledge_base (self (after (C:=Exact.up) (_build_knowledge_base "Rome") (fresh "key")))
     = ["Colosseum"]
  /\ Faiss.search (C:=Exact.up)
       (index (self (after (C:=Exact.up) (_build_knowledge_base "Rome") (fresh "key"))))
       [[4]] 3
     = [[0; -1; -1]]%Z
  /\ outcome (C:=Exact.up) (retrieve_relevant_info "food")
       (after (_build_knowledge_base "Rome") (fresh "key"))
     = Ok (join newline ["Colosseum"; "Colosseum"; "Colosseum"]).
Proof. repeat split; vm_compute; reflexivity. Qed.

(** C4: a query on an empty index, before any build and after a build that
    gathered no text.  The row of labels is three [-1], the empty
    knowledge base has no last entry, and the text returned is the error
    text, not an empty result. *)
Theorem C4_empty_index_yields_error_text :
  Faiss.search (C:=Exact.up) (index (self (fresh (C:=Exact.up) "key"))) [[4]] 3
  = [[-1; -1; -1]]%Z
  /\ outcome (C:=Exact.up) (retrieve_relevant_info "food") (fresh "key")
     = Ok "Error retrieving information: list index out of range"
  /\ outcome (C:=Exact.up) (_build_knowledge_base "Atlantis") (fresh "key") = Ok tt
  /\ index (self (after (C:=Exact.up) (_build_knowledge_base "Atlantis") (fresh "key"))) = []
  /\ knowledge_base (self (after (C:=Exact.up) (_build_knowledge_base "Atlantis")
                             (fresh "key"))) = []
  /\ outcome (C:=Exact.up) (retrieve_relevant_info "food")
       (after (_build_knowledge_base "Atlantis") (fresh "key"))
     = Ok "Error retrieving information: list index out of range".
Proof. repeat split; vm_compute; reflexivity. Qed.

End Scenarios.

(** * The rest of [DestinationInfoRetriever] and [TravelPlannerAssistant] *)

(** ** More Python values *)

Module PyStr.

(** [s.replace(old, new)] for one-character [old] and [new]. *)
Fixpoint replace (old new : ascii) (s : string) : string :=
  match s with
  | EmptyString => EmptyString
  | String c s' => String (if Ascii.eqb c old then new else c) (replace old new s')
  end.

(** [str(KeyError(key))]. *)
Definition KeyError (key : string) : exn := ("'" ++ key ++ "'")%string.

(** [d[key]] for a key that may be absent. *)
Definition item {A : Type} (field : option A) (key : string) : result A :=
  match field with
  | Some a => Ok a
  | None => Raise (KeyError key)
  end.

(** The truth value of [d.get(key)] for a text field: [None] and the
    empty string are false. *)
Definition truthy (field : option string) : bool :=
  match field with
  | Some s => negb (String.eqb s EmptyString)
  | None => false
  end.

End PyStr.
Import PyStr.

(** ** The other collaborators *)

(** A scalar of a JSON answer; a number is kept as its literal. *)
Inductive json : Type :=
| JString (s : string)
| JNumber (literal : string).

(** One entry of ['images_results']; only ['original'] is read. *)
Record image_result : Type := mk_image { original : option string }.

(** The answer of an images request, under the one key that is read. *)
Record images_dict : Type := mk_images { images_results : option (list image_result) }.

(** One entry of ['hotels_results'], under the four keys that are read. *)
Record hotel_result : Type := mk_hotel_result {
  hr_name : option json;
  hr_rating : option json;
  hr_price : option json;
  hr_description : option json
}.

Record hotels_dict : Type := mk_hotels { hotels_results : option (list hotel_result) }.

(** The dict appended to [hotels]: all four keys are present. *)
Record hotel : Type := mk_hotel {
  name : json;
  rating : json;
  price : json;
  description : json
}.

(** What [requests.get] returns, as far as it is used. *)
Record response : Type := mk_response {
  status_code : Z;
  text : string
}.

(** What the parsed page shows to the two [find] calls: the
    [div.mw-parser-output], if there is one, and in it the text of the
    first [p] without a class, if there is one. *)
Record division : Type := mk_division { first_plain_paragraph : option string }.
Record soup : Type := mk_soup { mw_parser_output : option division }.

Record message : Type := mk_message {
  role : string;
  content : string
}.

Record chat_request : Type := mk_chat_request {
  model : string;
  messages : list message;
  max_tokens : Z
}.

(** A chat completion: the [message.content] of each choice. *)
Record chat_response : Type := mk_chat_response { choices : list string }.

(** The collaborators of the retrieval core, and the others: the answers
    of the search API for the images and hotels engines (every request
    reads one key of its answer, chosen by its engine), [requests.get],
    the HTML parser, and the chat endpoint behind a client made with an
    API key. *)
Class Services : Type := {
  retrieval :: Collaborators;
  get_images_dict : params -> result images_dict;
  get_hotels_dict : params -> result hotels_dict;
  requests_get : string -> result response;
  BeautifulSoup : string -> soup;
  chat_completions_create : string -> chat_request -> result chat_response
}.

(** ** The other methods of [DestinationInfoRetriever] *)

(** The dict [fetch_destination_info] returns: three keys, or ['error']. *)
Inductive destination_info : Type :=
| Info (overview : string) (images : list string) (hotels : list hotel)
| ErrorInfo (error : string).

Section MoreMethods.
Context {S : Services}.

Definition HTTPError : exn := "HTTPError"%string.
Definition AttributeError : exn := "'NoneType' object has no attribute 'find'"%string.

(** [response.raise_for_status()]: statuses 400 to 599 raise. *)
Definition raise_for_status (r : response) : result unit :=
  if (400 <=? status_code r) && (status_code r <? 600) then Raise HTTPError else Ok tt.

Definition wikipedia_url (destination : string) : string :=
  ("https://en.wikipedia.org/wiki/" ++ replace " " "_" destination)%string.

(** [soup.find('div', class_='mw-parser-output').find('p', class_=False)]:
    [find] on the [None] of a missing [div] raises. *)
Definition find_first_paragraph (page : soup) : result (option string) :=
  match mw_parser_output page with
  | Some div => Ok (first_plain_paragraph div)
  | None => Raise AttributeError
  end.

Definition _get_wikipedia_overview (destination : string) : M string :=
  try_except
    (let url := wikipedia_url destination in
     response <- lift (requests_get url) ;;
     lift (raise_for_status response) ;;;
     let page := BeautifulSoup (text response) in
     first_paragraph <- lift (find_first_paragraph page) ;;
     ret (match first_paragraph with
          | Some paragraph => paragraph
          | None => "No overview available."%string
          end))
    (fun _ => ret "Unable to retrieve destination overview."%string).

(** [[img.get('original') for img in results.get('images_results', [])[:6]
     if img.get('original')]]. *)
Definition originals (results : images_dict) : list string :=
  flat_map (fun img => if truthy (original img) then [get (original img) EmptyString] else [])
           (slice_to 6 (get (images_results results) [])).

Definition _get_destination_images (destination : string) : M (list string) :=
  try_except
    (s <- get_self ;;
     let p := mk_params "google_images" (destination ++ " tourist attractions")%string
                        (serpapi_key s) in
     emit (EvGetDict p) ;;;
     results <- lift (get_images_dict p) ;;
     let images := originals results in
     ret images)
    (fun _ => ret []).

(** The dict built for one entry of ['hotels_results']. *)
Definition hotel_entry (h : hotel_result) : hotel :=
  mk_hotel (get (hr_name h) (JString "Unknown"))
           (get (hr_rating h) (JString "N/A"))
           (get (hr_price h) (JString "N/A"))
           (get (hr_description h) (JString "No description available")).

Definition _get_destination_hotels (destination : string) : M (list hotel) :=
  try_except
    (s <- get_self ;;
     let p := mk_params "google_travel" ("top hotels in " ++ destination)%string
                        (serpapi_key s) in
     emit (EvGetDict p) ;;;
     results <- lift (get_hotels_dict p) ;;
     let hotels := fold_left (fun hotels h => hotels ++ [hotel_entry h])
                             (get (hotels_results results) []) [] in
     ret (slice_to 5 hotels))
    (fun _ => ret []).

Definition fetch_destination_info (destination : string) : M destination_info :=
  try_except
    (overview <- _get_wikipedia_overview destination ;;
     images <- _get_destination_images destination ;;
     hotels <- _get_destination_hotels destination ;;
     _build_knowledge_base destination ;;;
     ret (Info overview images hotels))
    (fun e => ret (ErrorInfo e)).

(** [destination_info.get('images', [])]. *)
Definition info_images (info : destination_info) : list string :=
  match info with
  | Info _ images _ => images
  | ErrorInfo _ => []
  end.

End MoreMethods.

(** ** [TravelPlannerAssistant] *)

(** The value under ['interests']: the list of strings the form yields, or
    [None], which [', '.join] refuses. *)
Inductive interests_value : Type :=
| Chosen (items : list string)
| NoneValue.

(** [str(e)] of the [TypeError] that [', '.join(None)] raises. *)
Definition TypeError : exn := "can only join an iterable"%string.

(** The items [', '.join] goes through. *)
Definition iterate (v : interests_value) : result (list string) :=
  match v with
  | Chosen items => Ok items
  | NoneValue => Raise TypeError
  end.

(** The [user_preferences] dict.  Every key may be absent; a value is kept
    as the text the f-string renders for it, and ['interests'] as the
    value that is joined. *)
Module Pref.
Record t : Type := mk {
  destination : option string;
  duration : option string;
  travel_style : option string;
  interests : option interests_value;
  budget : option string;
  travelers : option string;
  travel_month : option string;
  specific_activities : option string;
  dietary_restrictions : option string;
  mobility_considerations : option string
}.
End Pref.

Section Prompts.
Local Open Scope string_scope.

Definition itinerary_system_prompt : string :=
  join newline
  [ "You are an expert travel planner. Your goal is to create a highly personalized and detailed travel itinerary based on the user's specific preferences.";
    EmptyString;
    "        Consider the following guidelines:";
    "        1. Tailor recommendations to the user's interests, budget, and travel style";
    "        2. Include a mix of popular attractions and off-the-beaten-path experiences";
    "        3. Provide practical details like estimated travel times, costs, and logistics";
    "        4. Suggest restaurants, activities, and accommodations that match the traveler's profile";
    "        5. Include cultural insights and local recommendations";
    "        6. Ensure the itinerary is realistic and well-paced";
    "        " ].

Definition itinerary_user_prompt
    (destination duration travel_style : string) (interests : list string)
    (budget travelers travel_month : string)
    (specific_activities dietary_restrictions mobility_considerations : option string)
  : string :=
  join newline
  [ "Please create a detailed travel itinerary for my trip to " ++ destination ++ ":";
    EmptyString;
    "        Trip Details:";
    "        - Destination: " ++ destination;
    "        - Duration: " ++ duration ++ " days";
    "        - Travel Style: " ++ travel_style;
    "        - Interests: " ++ join ", " interests;
    "        - Budget: " ++ budget;
    "        - Travelers: " ++ travelers;
    "        - Season/Month: " ++ travel_month;
    EmptyString;
    "        Additional Context:";
    "        - Specific activities I'm interested in: "
      ++ get specific_activities "None specified";
    "        - Dietary restrictions: " ++ get dietary_restrictions "None";
    "        - Mobility considerations: " ++ get mobility_considerations "None";
    EmptyString;
    "        Could you create a day-by-day itinerary that captures these preferences? Include recommended attractions, dining options, transportation details, and any special recommendations." ].

Definition query_system_prompt : string :=
  "You are a helpful travel assistant. Provide detailed and accurate answers to user queries about destinations, including recommendations for food, hotels, and activities based on their budget.".

Definition query_user_prompt (query destination relevant_info : string) : string :=
  join newline
  [ "User Query: " ++ query;
    "            Destination: " ++ destination;
    EmptyString;
    "            Relevant Information:";
    "            " ++ relevant_info;
    EmptyString;
    "            Provide a detailed response with recommendations. Include:";
    "            1. Specific places or activities";
    "            2. Estimated costs";
    "            3. Any additional tips or insights" ].

End Prompts.

Section Assistant.
Context {S : Services}.

(** The request both methods send, up to the prompts and the size. *)
Definition mixtral (system_prompt user_prompt : string) (size : Z) : chat_request :=
  mk_chat_request "mixtral-8x7b-32768"
                  [mk_message "system" system_prompt; mk_message "user" user_prompt]
                  size.

(** [self.client.chat.completions.create(...)] followed by
    [response.choices[0].message.content] is split where the source
    splits it.  The methods run on the state of
    [self.destination_retriever]; [groq_api_key] is the key [self.client]
    was made with.  The f-string reads its fields from left to right,
    before the [try]: the join of ['interests'] is made, or fails, between
    the reading of ['travel_style'] and that of ['budget']. *)
Definition generate_travel_itinerary (groq_api_key : string) (user_preferences : Pref.t)
  : M string :=
  let system_prompt := itinerary_system_prompt in
  destination <- lift (item (Pref.destination user_preferences) "destination") ;;
  duration <- lift (item (Pref.duration user_preferences) "duration") ;;
  travel_style <- lift (item (Pref.travel_style user_preferences) "travel_style") ;;
  interests <- lift (item (Pref.interests user_preferences) "interests") ;;
  interests <- lift (iterate interests) ;;
  budget <- lift (item (Pref.budget user_preferences) "budget") ;;
  travelers <- lift (item (Pref.travelers user_preferences) "travelers") ;;
  travel_month <- lift (item (Pref.travel_month user_preferences) "travel_month") ;;
  let user_prompt :=
    itinerary_user_prompt destination duration travel_style interests budget travelers
      travel_month (Pref.specific_activities user_preferences)
      (Pref.dietary_restrictions user_preferences)
      (Pref.mobility_considerations user_preferences) in
  try_except
    (response <- lift (chat_completions_create groq_api_key
                         (mixtral system_prompt user_prompt 4000)) ;;
     lift (getitem (choices response) 0))
    (fun e => ret ("Error generating itinerary: " ++ e)%string).

Definition handle_user_query (groq_api_key : string) (query destination : string)
  : M (string * list string) :=
  try_except
    (relevant_info <- retrieve_relevant_info query ;;
     let system_prompt := query_system_prompt in
     let user_prompt := query_user_prompt query destination relevant_info in
     response <- lift (chat_completions_create groq_api_key
                         (mixtral system_prompt user_prompt 2000)) ;;
     images <- _get_destination_images (destination ++ " " ++ query)%string ;;
     answer <- lift (getitem (choices response) 0) ;;
     ret (answer, images))
    (fun e => ret (("Error handling query: " ++ e)%string, [])).

Definition generate_personalized_trip (groq_api_key : string)
    (destination duration travel_style : string) (interests : list string)
    (budget travelers travel_month : string)
  : M (string * list string) :=
  let user_preferences :=
    Pref.mk (Some destination) (Some duration) (Some travel_style)
            (Some (Chosen interests))
            (Some budget) (Some travelers) (Some travel_month) None None None in
  itinerary <- generate_travel_itinerary groq_api_key user_preferences ;;
  destination_info <- fetch_destination_info destination ;;
  let images := info_images destination_info in
  ret (itinerary, images).

End Assistant.

(** ** The other methods of the retriever, in closed form *)

Section MoreFacts.
Context {S : Services}.

Definition unable : string := "Unable to retrieve destination overview."%string.

Definition overview_of (destination : string) : string :=
  match requests_get (wikipedia_url destination) with
  | Raise _ => unable
  | Ok r =>
      match raise_for_status r with
      | Raise _ => unable
      | Ok _ =>
          match find_first_paragraph (BeautifulSoup (text r)) with
          | Raise _ => unable
          | Ok (Some paragraph) => paragraph
          | Ok None => "No overview available."%string
          end
      end
  end.

Definition images_params (key destination : string) : params :=
  mk_params "google_images" (destination ++ " tourist attractions")%string key.

Definition hotels_params (key destination : string) : params :=
  mk_params "google_travel" ("top hotels in " ++ destination)%string key.

Definition images_of (p : params) : list string :=
  match get_images_dict p with
  | Ok results => originals results
  | Raise _ => []
  end.

Definition hotels_of (p : params) : list hotel :=
  match get_hotels_dict p with
  | Ok results => map hotel_entry (firstn 5 (get (hotels_results results) []))
  | Raise _ => []
  end.

(** The requests made to the search API, in order. *)
Definition get_dict_calls (tr : list event) : list params :=
  flat_map (fun ev => match ev with EvGetDict p => [p] | _ => [] end) tr.

Lemma get_dict_calls_app (tr tr' : list event) :
  get_dict_calls (tr ++ tr') = get_dict_calls tr ++ get_dict_calls tr'.
Proof. apply flat_map_app. Qed.

Lemma run_wikipedia (destination : string) (st : state) :
  _get_wikipedia_overview destination st = (Ok (overview_of destination), st).
Proof.
  unfold _get_wikipedia_overview, overview_of, try_except, bind, lift, ret.
  destruct (requests_get _) as [r|e]; [|reflexivity].
  destruct (raise_for_status r); [|reflexivity].
  destruct (find_first_paragraph _) as [[paragraph|]|e]; reflexivity.
Qed.

Lemma run_images (destination : string) (st : state) :
  _get_destination_images destination st
  = (Ok (images_of (images_params (serpapi_key (self st)) destination)),
     mk_state (self st)
              (trace st ++ [EvGetDict (images_params (serpapi_key (self st)) destination)])).
Proof.
  unfold _get_destination_images, images_of, images_params, try_except, bind,
    get_self, emit, lift, ret; simpl.
  destruct (get_images_dict _); reflexivity.
Qed.

Lemma fold_append_map {A B : Type} (f : A -> B) (l : list A) (acc : list B) :
  fold_left (fun hotels h => hotels ++ [f h]) l acc = acc ++ map f l.
Proof.
  revert acc. induction l as [|a l IH]; intros acc; simpl.
  - symmetry. apply app_nil_r.
  - rewrite IH, <- app_assoc. reflexivity.
Qed.

Lemma run_hotels (destination : string) (st : state) :
  _get_destination_hotels destination st
  = (Ok (hotels_of (hotels_params (serpapi_key (self st)) destination)),
     mk_state (self st)
              (trace st ++ [EvGetDict (hotels_params (serpapi_key (self st)) destination)])).
Proof.
  unfold _get_destination_hotels, hotels_of, hotels_params, try_except, bind,
    get_self, emit, lift, ret; cbv beta iota.
  destruct (get_hotels_dict _) as [results|e]; [|reflexivity].
  rewrite fold_append_map. cbn [app]. unfold slice_to. rewrite firstn_map. reflexivity.
Qed.

Lemma run_fetch (destination : string) (st : state) :
  fetch_destination_info destination st
  = (Ok (Info (overview_of destination)
              (images_of (images_params (serpapi_key (self st)) destination))
              (hotels_of (hotels_params (serpapi_key (self st)) destination))),
     built destination
       (mk_state (self st)
          ((trace st ++ [EvGetDict (images_params (serpapi_key (self st)) destination)])
             ++ [EvGetDict (hotels_params (serpapi_key (self st)) destination)]))).
Proof.
  unfold fetch_destination_info, try_except.
  unfold bind at 1. rewrite run_wikipedia.
  unfold bind at 1. rewrite run_images.
  unfold bind at 1. rewrite run_hotels.
  unfold bind at 1. rewrite run_build. reflexivity.
Qed.

Lemma originals_length (results : images_dict) : (List.length (originals results) <= 6)%nat.
Proof.
  unfold originals, slice_to.
  assert (H : forall l : list image_result,
             (List.length (flat_map (fun img => if truthy (original img)
                                                then [get (original img) EmptyString]
                                                else []) l) <= List.length l)%nat).
  { induction l as [|img l IH]; simpl; [lia|].
    destruct (truthy (original img)); simpl; lia. }
  eapply Nat.le_trans; [apply H|]. rewrite length_firstn. lia.
Qed.

Lemma originals_nonempty (results : images_dict) :
  Forall (fun url => url <> EmptyString) (originals results).
Proof.
  unfold originals. induction (slice_to 6 (get (images_results results) [])) as [|img l IH];
    simpl; [constructor|].
  destruct (original img) as [url|] eqn:Hurl; simpl; [|exact IH].
  destruct (String.eqb url EmptyString) eqn:E; simpl; [exact IH|].
  constructor; [|exact IH]. apply String.eqb_neq. exact E.
Qed.

Lemma images_of_length (p : params) : (List.length (images_of p) <= 6)%nat.
Proof. unfold images_of. destruct (get_images_dict p); [apply originals_length | simpl; lia]. Qed.

Lemma hotels_of_length (p : params) : (List.length (hotels_of p) <= 5)%nat.
Proof.
  unfold hotels_of. destruct (get_hotels_dict p); [|simpl; lia].
  rewrite length_map, length_firstn. lia.
Qed.

Lemma built_self (destination : string) (st : state) (tr : list event) :
  self (built destination (mk_state (self st) tr)) = self (built destination st).
Proof. unfold built; simpl. destruct (encode _) as [[|v x]|err]; reflexivity. Qed.

End MoreFacts.

(** ** Queries and repeated builds, whatever the collaborators *)

Section Lockstep.
Context {C : Collaborators}.

(** The state after building for each destination in turn. *)
Definition after_builds (destinations : list string) (st : state) : state :=
  fold_left (fun st' destination => after (_build_knowledge_base destination) st')
            destinations st.

Lemma getitem_position {A : Type} (l : list A) (p : nat) (d : A) :
  (p < List.length l)%nat -> getitem l (Z.of_nat p) = Ok (nth p l d).
Proof.
  intros Hp. unfold getitem.
  destruct (Z.of_nat p <? 0) eqn:Hneg; [apply Z.ltb_lt in Hneg; lia|].
  replace ((0 <=? Z.of_nat p) && (Z.of_nat p <? Z.of_nat (List.length l))) with true
    by (symmetry; apply andb_true_iff; split; [apply Z.leb_le | apply Z.ltb_lt]; lia).
  rewrite Nat2Z.id, (nth_error_nth' l d Hp). reflexivity.
Qed.

Lemma getitem_last_app {A : Type} (l : list A) (a : A) : getitem (l ++ [a]) (-1) = Ok a.
Proof.
  unfold getitem. change (-1 <? 0) with true. cbv iota.
  rewrite length_app. simpl List.length.
  replace ((0 <=? -1 + Z.of_nat (List.length l + 1))
           && (-1 + Z.of_nat (List.length l + 1) <? Z.of_nat (List.length l + 1)))
    with true
    by (symmetry; apply andb_true_iff; split; [apply Z.leb_le | apply Z.ltb_lt]; lia).
  replace (Z.to_nat (-1 + Z.of_nat (List.length l + 1))) with (List.length l) by lia.
  rewrite nth_error_app2; [|lia]. rewrite Nat.sub_diag. reflexivity.
Qed.

Lemma getitem_minus_one {A : Type} (l : list A) (d : A) :
  l <> [] -> getitem l (-1) = Ok (last l d).
Proof.
  intros Hl. rewrite (app_removelast_last d Hl) at 1. apply getitem_last_app.
Qed.

(** One step of the comprehension over the labels. *)
Lemma comprehension_cons (st : state) (i : Z) (row : list Z) :
  mapM (fun i => s <- get_self ;; lift (getitem (knowledge_base s) i)) (i :: row) st
  = match getitem (knowledge_base (self st)) i with
    | Ok b =>
        match mapM (fun i => s <- get_self ;; lift (getitem (knowledge_base s) i)) row st with
        | (Ok bs, st') => (Ok (b :: bs), st')
        | (Raise e, st') => (Raise e, st')
        end
    | Raise e => (Raise e, st)
    end.
Proof.
  cbn [mapM]. unfold bind at 1. unfold bind at 1. unfold get_self, lift.
  destruct (getitem (knowledge_base (self st)) i); [|reflexivity].
  unfold bind at 1. destruct (mapM _ row st) as [[bs|e] st']; reflexivity.
Qed.

(** The comprehension neither changes the state nor stops early when every
    label can be looked up. *)
Lemma comprehension_all_found (st : state) (row : list Z) (g : Z -> string) :
  (forall i, In i row -> getitem (knowledge_base (self st)) i = Ok (g i)) ->
  mapM (fun i => s <- get_self ;; lift (getitem (knowledge_base s) i)) row st
  = (Ok (map g row), st).
Proof.
  induction row as [|i row IH]; intros Hrow; [reflexivity|].
  rewrite comprehension_cons, (Hrow i (or_introl eq_refl)).
  rewrite IH by (intros j Hj; apply Hrow; right; exact Hj). reflexivity.
Qed.

Lemma comprehension_keeps_state (st : state) (row : list Z) :
  snd (mapM (fun i => s <- get_self ;; lift (getitem (knowledge_base s) i)) row st) = st.
Proof.
  induction row as [|i row IH]; [reflexivity|].
  rewrite comprehension_cons.
  destruct (getitem (knowledge_base (self st)) i); [|reflexivity].
  destruct (mapM _ row st) as [[bs|e] st']; simpl in IH; subst st'; reflexivity.
Qed.

Lemma ranked_in_range (ix : list vec) (v : vec) (k p : nat) :
  In p (firstn k (nearest ix v)) -> (p < List.length ix)%nat.
Proof.
  intros Hp.
  assert (Hin : In p (nearest ix v)).
  { rewrite <- (firstn_skipn k (nearest ix v)). apply in_or_app. left. exact Hp. }
  apply (Permutation_in _ (nearest_perm ix v)) in Hin.
  apply in_seq in Hin. lia.
Qed.

Lemma nearest_length (ix : list vec) (v : vec) :
  List.length (nearest ix v) = List.length ix.
Proof. rewrite (Permutation_length (nearest_perm ix v)). apply length_seq. Qed.

Lemma nearest_NoDup (ix : list vec) (v : vec) : NoDup (nearest ix v).
Proof.
  apply (Permutation_NoDup (Permutation_sym (nearest_perm ix v))). apply seq_NoDup.
Qed.

Lemma build_keeps_key (destination : string) (st : state) :
  serpapi_key (self (after (_build_knowledge_base destination) st))
  = serpapi_key (self st).
Proof.
  unfold after. rewrite run_build. simpl. unfold built.
  destruct (encode _) as [[|v x]|err]; reflexivity.
Qed.

Lemma build_knowledge_base_is_gathered (destination : string) (st : state) :
  knowledge_base (self (after (_build_knowledge_base destination) st))
  = gathered (serpapi_key (self st)) destination.
Proof.
  unfold after. rewrite run_build. simpl. unfold built.
  destruct (encode _) as [[|v x]|err]; reflexivity.
Qed.

Lemma after_builds_key (destinations : list string) (st : state) :
  serpapi_key (self (after_builds destinations st)) = serpapi_key (self st).
Proof.
  revert st. induction destinations as [|d ds IH]; intros st; simpl; [reflexivity|].
  unfold after_builds in IH. rewrite IH. apply build_keeps_key.
Qed.

End Lockstep.

Section QueryProperties.
Context {C : Collaborators}.

Definition searched (query : string) (st : state) : state :=
  mk_state (self st) ((trace st ++ [EvEncode [query]]) ++ [EvIndexSearch 3]).

Lemma run_query (query : string) (st : state) :
  retrieve_relevant_info query st
  = match encode [query] with
    | Raise e =>
        (Ok ("Error retrieving information: " ++ e)%string,
         mk_state (self st) (trace st ++ [EvEncode [query]]))
    | Ok x =>
        match getitem (Faiss.search (index (self st)) x 3) 0 with
        | Raise e => (Ok ("Error retrieving information: " ++ e)%string, searched query st)
        | Ok row =>
            match mapM (fun i => s <- get_self ;; lift (getitem (knowledge_base s) i))
                       row (searched query st) with
            | (Ok relevant_info, _) => (Ok (join newline relevant_info), searched query st)
            | (Raise e, _) =>
                (Ok ("Error retrieving information: " ++ e)%string, searched query st)
            end
        end
    end.
Proof.
  pose proof (fun row => comprehension_keeps_state (searched query st) row) as Hst.
  cbv beta iota delta [retrieve_relevant_info try_except bind encoder_encode emit lift
    index_search get_self ret searched] in *.
  cbn [self trace] in *.
  destruct (encode [query]) as [x|e]; [|reflexivity].
  destruct (getitem (Faiss.search (index (self st)) x 3) 0) as [row|e]; [|reflexivity].
  specialize (Hst row).
  destruct (mapM _ row _) as [[infos|e] st']; cbn [snd] in Hst; subst st'; reflexivity.
Qed.

(** X1: a query never raises and never changes the object: whatever the
    encoder, the index and the knowledge base do, it returns a string and
    leaves the key, the index and the knowledge base as they were. *)
Theorem query_never_raises_nor_mutates (query : string) (st : state) :
  exists answer : string,
    outcome (retrieve_relevant_info query) st = Ok answer
    /\ self (after (retrieve_relevant_info query) st) = self st.
Proof.
  unfold outcome, after. rewrite run_query.
  destruct (encode [query]) as [x|e]; [|eexists; split; reflexivity].
  destruct (getitem _ 0) as [row|e]; [|eexists; split; reflexivity].
  destruct (mapM _ row _) as [[infos|e] st']; eexists; split; reflexivity.
Qed.

(** The answer in step, for the one row the encoder returns. *)
Lemma lockstep_answer (query : string) (st : state) (v : vec) :
  encode [query] = Ok [v] ->
  knowledge_base (self st) <> [] ->
  List.length (index (self st)) = List.length (knowledge_base (self st)) ->
  outcome (retrieve_relevant_info query) st
  = Ok (join newline
          (map (fun p => nth p (knowledge_base (self st)) EmptyString)
               (firstn 3 (nearest (index (self st)) v))
           ++ repeat (last (knowledge_base (self st)) EmptyString)
                     (3 - List.length (index (self st))))).
Proof.
  intros Hx Hkb Hlen.
  unfold outcome. rewrite run_query, Hx.
  cbn [Faiss.search map]. change (getitem [Faiss.search_row (index (self st)) 3 v] 0)
    with (Ok (A:=list Z) (Faiss.search_row (index (self st)) 3 v)).
  cbv iota.
  rewrite (comprehension_all_found (searched query st) _
             (fun i => if i <? 0 then last (knowledge_base (self st)) EmptyString
                       else nth (Z.to_nat i) (knowledge_base (self st)) EmptyString)).
  - cbn [fst]. do 2 f_equal.
    unfold Faiss.search_row, Faiss.pad_labels.
    rewrite map_app, map_map, map_repeat. f_equal.
    + apply map_ext_in. intros p _.
      destruct (Z.of_nat p <? 0) eqn:Hneg; [apply Z.ltb_lt in Hneg; lia|].
      rewrite Nat2Z.id. reflexivity.
    + rewrite length_map, length_firstn, nearest_length.
      replace (3 - Nat.min 3 (List.length (index (self st))))%nat
        with (3 - List.length (index (self st)))%nat by lia.
      reflexivity.
  - intros i Hi. cbn [searched self].
    unfold Faiss.search_row, Faiss.pad_labels in Hi.
    apply in_app_or in Hi. destruct Hi as [Hi|Hi].
    + apply in_map_iff in Hi. destruct Hi as [p [<- Hp]].
      apply ranked_in_range in Hp. rewrite Hlen in Hp.
      destruct (Z.of_nat p <? 0) eqn:Hneg; [apply Z.ltb_lt in Hneg; lia|].
      rewrite Nat2Z.id. apply getitem_position. exact Hp.
    + apply repeat_spec in Hi. subst i. apply getitem_minus_one. exact Hkb.
Qed.

(** X2: when the index and the knowledge base have the same, non-zero,
    number of entries and the query can be embedded, the query returns no
    error text.  The search returns a row of three labels: the positions
    it ranks first (at most three, whichever the library's ranking puts
    there), then [-1] for each one missing.  The answer joins the
    knowledge base entries at those positions, in the order of the
    labels, followed by one copy of the last entry for each [-1]. *)
Theorem query_in_lockstep (query : string) (st : state) (x : list vec) :
  encode [query] = Ok x ->
  knowledge_base (self st) <> [] ->
  List.length (index (self st)) = List.length (knowledge_base (self st)) ->
  exists v : vec,
    x = [v]
    /\ Faiss.search (index (self st)) x 3
       = [map Z.of_nat (firstn 3 (nearest (index (self st)) v))
          ++ repeat (-1) (3 - List.length (index (self st)))]
    /\ outcome (retrieve_relevant_info query) st
       = Ok (join newline
               (map (fun p => nth p (knowledge_base (self st)) EmptyString)
                    (firstn 3 (nearest (index (self st)) v))
                ++ repeat (last (knowledge_base (self st)) EmptyString)
                          (3 - List.length (index (self st))))).
Proof.
  intros Hx Hkb Hlen.
  destruct (encode_one_row _ _ Hx) as [v Hv]. subst x.
  exists v. split; [reflexivity|]. split.
  - cbn [Faiss.search map]. unfold Faiss.search_row, Faiss.pad_labels.
    rewrite length_map, length_firstn, nearest_length.
    replace (3 - Nat.min 3 (List.length (index (self st))))%nat
      with (3 - List.length (index (self st)))%nat by lia.
    reflexivity.
  - apply lockstep_answer; assumption.
Qed.

(** X3: with three or more entries on both sides, the answer is exactly
    three knowledge base entries, taken at three different positions. *)
Theorem query_returns_three_distinct_entries (query : string) (st : state) (x : list vec) :
  encode [query] = Ok x ->
  (3 <= List.length (index (self st)))%nat ->
  List.length (index (self st)) = List.length (knowledge_base (self st)) ->
  exists (v : vec) (a b c : nat),
    x = [v]
    /\ firstn 3 (nearest (index (self st)) v) = [a; b; c]
    /\ NoDup [a; b; c]
    /\ (a < List.length (knowledge_base (self st)))%nat
    /\ (b < List.length (knowledge_base (self st)))%nat
    /\ (c < List.length (knowledge_base (self st)))%nat
    /\ outcome (retrieve_relevant_info query) st
       = Ok (join newline [nth a (knowledge_base (self st)) EmptyString;
                           nth b (knowledge_base (self st)) EmptyString;
                           nth c (knowledge_base (self st)) EmptyString]).
Proof.
  intros Hx Hn Hlen.
  assert (Hkb : knowledge_base (self st) <> [])
    by (intros E; rewrite E in Hlen; simpl in Hlen; lia).
  destruct (encode_one_row _ _ Hx) as [v Hv]. subst x.
  pose proof (lockstep_answer query st v Hx Hkb Hlen) as Hout.
  pose proof (nearest_length (index (self st)) v) as Hnl.
  pose proof (nearest_NoDup (index (self st)) v) as Hnd.
  assert (Hrange : forall p, In p (firstn 3 (nearest (index (self st)) v)) ->
                             (p < List.length (knowledge_base (self st)))%nat)
    by (intros p Hp; rewrite <- Hlen; apply (ranked_in_range _ _ _ _ Hp)).
  destruct (nearest (index (self st)) v) as [|a [|b [|c rest]]] eqn:Hnear;
    simpl in Hnl; try lia.
  exists v, a, b, c. rewrite Hnear. cbn [firstn] in *.
  split; [reflexivity|]. split; [reflexivity|]. repeat split.
  - change (a :: b :: c :: rest) with ([a; b; c] ++ rest) in Hnd.
    apply NoDup_app_remove_r in Hnd. exact Hnd.
  - apply Hrange. simpl. auto.
  - apply Hrange. simpl. auto.
  - apply Hrange. simpl. auto.
  - rewrite Hout. replace (3 - List.length (index (self st)))%nat with 0%nat by lia.
    reflexivity.
Qed.

(** X4: builds accumulate in the index and replace the knowledge base.
    With an encoder that always answers, after building for a list of
    destinations the index has grown by the sizes of all the knowledge
    bases gathered, while the knowledge base holds the text of the last
    destination only. *)
Theorem builds_accumulate_rows
    (destinations : list string) (destination : string) (st : state) :
  (forall texts : list string, exists x : list vec, encode texts = Ok x) ->
  knowledge_base (self (after_builds (destinations ++ [destination]) st))
  = gathered (serpapi_key (self st)) destination
  /\ Faiss.ntotal (index (self (after_builds (destinations ++ [destination]) st)))
     = (Faiss.ntotal (index (self st))
        + list_sum (map (fun d => List.length (gathered (serpapi_key (self st)) d))
                        (destinations ++ [destination])))%nat.
Proof.
  intros Henc. split.
  - unfold after_builds. rewrite fold_left_app. cbn [fold_left].
    rewrite build_knowledge_base_is_gathered.
    fold (after_builds destinations st). rewrite after_builds_key. reflexivity.
  - generalize (destinations ++ [destination]). clear destinations destination.
    intros ds. revert st. induction ds as [|d ds IH]; intros st.
    + simpl. rewrite Nat.add_0_r. reflexivity.
    + cbn [after_builds fold_left]. fold (after_builds ds (after (_build_knowledge_base d) st)).
      rewrite IH, build_keeps_key.
      destruct (Henc (gathered (serpapi_key (self st)) d)) as [x Hx].
      rewrite (build_index_grows d st x Hx), build_knowledge_base_is_gathered.
      cbn [map]. rewrite <- Nat.add_assoc. reflexivity.
Qed.

(** X5: the first build on the object [__init__] made puts the index and
    the knowledge base in step, when the encoder answers. *)
Theorem first_build_is_in_lockstep (key destination : string) (x : list vec) :
  encode (gathered key destination) = Ok x ->
  Faiss.ntotal (index (self (after (_build_knowledge_base destination) (fresh key))))
  = List.length (knowledge_base (self (after (_build_knowledge_base destination) (fresh key))))
  /\ index (self (after (_build_knowledge_base destination) (fresh key))) = x.
Proof.
  intros Hx. split.
  - rewrite (build_index_grows destination (fresh key) x Hx). reflexivity.
  - unfold after. rewrite run_build. cbn [snd]. unfold built. cbn [fresh self serpapi_key __init__].
    rewrite Hx. destruct x; reflexivity.
Qed.

(** X27: a build that gathers no text does not raise and stores nothing:
    the encoder is called on the empty list, [add] raises on the array
    without rows, and the build prints that error; the index is the one
    from before and the knowledge base is empty. *)
Theorem empty_build_reports_add_failure
    (destination : string) (st : state) (x : list vec) :
  gathered (serpapi_key (self st)) destination = [] ->
  encode [] = Ok x ->
  outcome (_build_knowledge_base destination) st = Ok tt
  /\ index (self (after (_build_knowledge_base destination) st)) = index (self st)
  /\ knowledge_base (self (after (_build_knowledge_base destination) st)) = []
  /\ encoder_calls (trace (after (_build_knowledge_base destination) st))
     = encoder_calls (trace st) ++ [[]]
  /\ exists tr : list event,
      trace (after (_build_knowledge_base destination) st)
      = tr ++ [EvPrint ("Error building knowledge base: "
                          ++ "not enough values to unpack (expected 2, got 1)")%string].
Proof.
  intros Hg Hx. pose proof (encode_rows _ _ Hx) as Hrows.
  destruct x as [|v x]; [|discriminate Hrows].
  unfold outcome, after. rewrite run_build. cbn [fst snd].
  unfold built. rewrite Hg, Hx. cbn [self trace index knowledge_base].
  split; [reflexivity|]. split; [reflexivity|]. split; [reflexivity|]. split.
  - rewrite !encoder_calls_app. simpl. rewrite !app_nil_r. reflexivity.
  - eexists. reflexivity.
Qed.

End QueryProperties.

(** ** Scripted services

    The scripted collaborators, with a destination of four snippets, an
    images answer of seven entries, a hotels answer with missing keys, two
    pages, and a chat endpoint whose behaviour is chosen by the API key. *)

Module Script.
Local Open Scope string_scope.

Definition atlas : Exact.web :=
  [ ("top attractions in Kyoto", Exact.organic ["Kinkaku-ji"; "Fushimi Inari"; "Gion"]);
    ("top restaurants in Kyoto", Exact.organic ["Nishiki Market"]);
    ("top attractions in Rome", Exact.organic ["Colosseum"]);
    ("top restaurants in Rome", Raise "HTTP 429");
    ("top attractions in Nara", Exact.organic ["Todai-ji"; "Deer park"]) ].

Definition core : Collaborators :=
  Exact.collaborators atlas Exact.encode_length Exact.encode_length_rows.

Definition six : list image_result :=
  [ mk_image (Some "https://img/1.jpg"); mk_image None; mk_image (Some EmptyString);
    mk_image (Some "https://img/4.jpg"); mk_image None; mk_image (Some "https://img/6.jpg") ].

Definition images (p : params) : result images_dict :=
  if String.eqb (q p) "Kyoto tourist attractions"
  then Ok (mk_images (Some (six ++ [mk_image (Some "https://img/7.jpg")])%list))
  else if String.eqb (q p) "Kyoto tea tourist attractions"
  then Ok (mk_images (Some [mk_image (Some "https://img/tea.jpg")]))
  else Raise "HTTP 429".

Definition forum : hotel_result :=
  mk_hotel_result (Some (JString "Hotel Forum")) (Some (JNumber "4.5")) None None.

Definition hotels (p : params) : result hotels_dict :=
  if String.eqb (q p) "top hotels in Kyoto"
  then Ok (mk_hotels (Some [forum; forum; forum; forum; forum; forum]))
  else Raise "HTTP 429".

Definition pages (url : string) : result response :=
  if String.eqb url "https://en.wikipedia.org/wiki/Kyoto"
  then Ok (mk_response 200 "kyoto")
  else if String.eqb url "https://en.wikipedia.org/wiki/New_York"
  then Ok (mk_response 200 "bare")
  else Ok (mk_response 404 "missing").

Definition parse (html : string) : soup :=
  if String.eqb html "kyoto"
  then mk_soup (Some (mk_division (Some "Kyoto is a city in Japan.")))
  else if String.eqb html "bare"
  then mk_soup (Some (mk_division None))
  else mk_soup None.

(** The key [live] gets an answer, the key [mute] an answer without
    choices, any other key is refused. *)
Definition chat (api_key : string) (request : chat_request) : result chat_response :=
  if String.eqb api_key "live" then Ok (mk_chat_response ["Visit the temples."])
  else if String.eqb api_key "mute" then Ok (mk_chat_response [])
  else Raise "401 Unauthorized".

Definition services : Services :=
  {| retrieval := core;
     get_images_dict := images;
     get_hotels_dict := hotels;
     requests_get := pages;
     BeautifulSoup := parse;
     chat_completions_create := chat |}.

End Script.

(** ** The query and build theorems on the scripted services *)

Section LockstepScenarios.
Local Open Scope string_scope.

Let nara : state := after (C:=Script.core) (_build_knowledge_base "Nara") (fresh "key").

Lemma query_in_lockstep_witness :
  @encode Script.core ["where to go"] = Ok [[11]]
  /\ knowledge_base (self nara) <> []
  /\ List.length (index (self nara)) = List.length (knowledge_base (self nara))
  /\ (exists v : @vec Script.core,
        [[11]] = [v]
        /\ Faiss.search (index (self nara)) [[11]] 3
           = [map Z.of_nat (firstn 3 (nearest (index (self nara)) v))
              ++ repeat (-1)%Z (3 - List.length (index (self nara)))]%list
        /\ outcome (C:=Script.core) (retrieve_relevant_info "where to go") nara
           = Ok (join newline
                   (map (fun p => nth p (knowledge_base (self nara)) EmptyString)
                        (firstn 3 (nearest (index (self nara)) v))
                    ++ repeat (last (knowledge_base (self nara)) EmptyString)
                              (3 - List.length (index (self nara))))%list))
  /\ knowledge_base (self nara) = ["Todai-ji"; "Deer park"]
  /\ Faiss.search (C:=Script.core) (index (self nara)) [[11]] 3 = [[1; 0; -1]]%Z
  /\ outcome (C:=Script.core) (retrieve_relevant_info "where to go") nara
     = Ok (join newline ["Deer park"; "Todai-ji"; "Deer park"]).
Proof.
  split; [reflexivity|]. split; [discriminate|]. split; [reflexivity|].
  split; [|repeat split; reflexivity].
  apply (query_in_lockstep (C:=Script.core) "where to go" nara [[11]]);
    [reflexivity | discriminate | reflexivity].
Defined.

Let kyoto : state := after (C:=Script.core) (_build_knowledge_base "Kyoto") (fresh "key").

Lemma query_returns_three_distinct_entries_witness :
  @encode Script.core ["tea"] = Ok [[3]]
  /\ (3 <= List.length (index (self kyoto)))%nat
  /\ List.length (index (self kyoto)) = List.length (knowledge_base (self kyoto))
  /\ exists (v : @vec Script.core) (a b c : nat),
      [[3]] = [v]
      /\ firstn 3 (nearest (index (self kyoto)) v) = [a; b; c]
      /\ NoDup [a; b; c]
      /\ (a < List.length (knowledge_base (self kyoto)))%nat
      /\ (b < List.length (knowledge_base (self kyoto)))%nat
      /\ (c < List.length (knowledge_base (self kyoto)))%nat
      /\ outcome (C:=Script.core) (retrieve_relevant_info "tea") kyoto
         = Ok (join newline [nth a (knowledge_base (self kyoto)) EmptyString;
                             nth b (knowledge_base (self kyoto)) EmptyString;
                             nth c (knowledge_base (self kyoto)) EmptyString]).
Proof.
  split; [reflexivity|]. split; [vm_compute; lia|]. split; [reflexivity|].
  apply (query_returns_three_distinct_entries (C:=Script.core) "tea" kyoto [[3]]);
    [reflexivity | vm_compute; lia | reflexivity].
Defined.

Lemma empty_build_reports_add_failure_witness :
  gathered (C:=Script.core) "key" "Atlantis" = []
  /\ @encode Script.core [] = Ok []
  /\ outcome (C:=Script.core) (_build_knowledge_base "Atlantis") kyoto = Ok tt
  /\ index (self (after (C:=Script.core) (_build_knowledge_base "Atlantis") kyoto))
     = index (self kyoto)
  /\ knowledge_base (self (after (C:=Script.core) (_build_knowledge_base "Atlantis") kyoto))
     = []
  /\ encoder_calls (trace (after (C:=Script.core) (_build_knowledge_base "Atlantis") kyoto))
     = (encoder_calls (trace kyoto) ++ [[]])%list
  /\ exists tr : list event,
      trace (after (C:=Script.core) (_build_knowledge_base "Atlantis") kyoto)
      = (tr ++ [EvPrint ("Error building knowledge base: "
                           ++ "not enough values to unpack (expected 2, got 1)")])%list.
Proof.
  split; [reflexivity|]. split; [reflexivity|].
  exact (empty_build_reports_add_failure (C:=Script.core) "Atlantis" kyoto [] eq_refl eq_refl).
Defined.

Lemma builds_accumulate_rows_witness :
  (forall texts : list string, exists x : list (@vec Script.core),
        @encode Script.core texts = Ok x)
  /\ knowledge_base (self (after_builds (C:=Script.core) (["Kyoto"] ++ ["Rome"]) (fresh "key")))
     = ["Colosseum"]
  /\ Faiss.ntotal (index (self (after_builds (C:=Script.core) (["Kyoto"] ++ ["Rome"])
                                  (fresh "key"))))
     = 5%nat.
Proof.
  split; [intros texts; eexists; reflexivity|].
  exact (builds_accumulate_rows (C:=Script.core) ["Kyoto"] "Rome" (fresh "key")
           (fun texts => ex_intro _ _ eq_refl)).
Defined.

Lemma first_build_is_in_lockstep_witness :
  @encode Script.core (gathered (C:=Script.core) "key" "Kyoto") = Ok [[10]; [13]; [4]; [14]]
  /\ Faiss.ntotal (index (self (after (C:=Script.core) (_build_knowledge_base "Kyoto")
                                  (fresh "key"))))
     = List.length (knowledge_base (self (after (C:=Script.core) (_build_knowledge_base "Kyoto")
                                            (fresh "key"))))
  /\ index (self (after (C:=Script.core) (_build_knowledge_base "Kyoto") (fresh "key")))
     = [[10]; [13]; [4]; [14]].
Proof.
  split; [reflexivity|].
  exact (first_build_is_in_lockstep (C:=Script.core) "key" "Kyoto" [[10]; [13]; [4]; [14]]
           eq_refl).
Defined.

End LockstepScenarios.

(** ** Properties of the other retriever methods *)

Section RetrieverProperties.
Context {S : Services}.

Lemma replace_drops_old (old new : ascii) (s : string) :
  old <> new -> ~ In old (list_ascii_of_string (replace old new s)).
Proof.
  intros Hne. induction s as [|c s IH]; simpl; [tauto|].
  intros [H|H]; [|exact (IH H)].
  destruct (Ascii.eqb c old) eqn:E.
  - apply Hne. symmetry. exact H.
  - apply Ascii.eqb_neq in E. apply E. exact H.
Qed.

Lemma replace_length (old new : ascii) (s : string) :
  String.length (replace old new s) = String.length s.
Proof. induction s as [|c s IH]; simpl; [reflexivity | rewrite IH; reflexivity]. Qed.

Lemma replace_without_old (old new : ascii) (s : string) :
  ~ In old (list_ascii_of_string s) -> replace old new s = s.
Proof.
  induction s as [|c s IH]; simpl; intros H; [reflexivity|].
  destruct (Ascii.eqb c old) eqn:E.
  - apply Ascii.eqb_eq in E. exfalso. apply H. left. exact E.
  - rewrite IH; [reflexivity|]. intros Hin. apply H. right. exact Hin.
Qed.

Lemma replace_get (old new : ascii) (s : string) (n : nat) :
  String.get n (replace old new s)
  = option_map (fun c => if Ascii.eqb c old then new else c) (String.get n s).
Proof.
  revert n. induction s as [|c s IH]; intros n; simpl; [reflexivity|].
  destruct n as [|n]; simpl; [reflexivity | apply IH].
Qed.

(** X6: in the address requested from Wikipedia every space of the
    destination has become an underscore and every other character is
    kept, at its place after the 30 characters of the prefix; so the
    address never contains a space, is 30 characters longer than the
    destination, and a destination without a space is used as it is. *)
Theorem wikipedia_url_has_no_space (destination : string) :
  ~ In " "%char (list_ascii_of_string (wikipedia_url destination))
  /\ String.length (wikipedia_url destination) = (30 + String.length destination)%nat
  /\ (~ In " "%char (list_ascii_of_string destination) ->
      wikipedia_url destination
      = ("https://en.wikipedia.org/wiki/" ++ destination)%string)
  /\ (forall (n : nat) (c : ascii),
        String.get n destination = Some c ->
        String.get (30 + n) (wikipedia_url destination)
        = Some (if Ascii.eqb c " " then "_"%char else c))
  /\ (forall n : nat,
        (n < 30)%nat ->
        String.get n (wikipedia_url destination)
        = String.get n "https://en.wikipedia.org/wiki/"%string).
Proof.
  unfold wikipedia_url. split; [|split; [|split; [|split]]].
  - simpl. intros H.
    repeat (destruct H as [H|H]; [discriminate H|]).
    revert H. apply replace_drops_old. discriminate.
  - simpl. rewrite replace_length. reflexivity.
  - intros H. rewrite (replace_without_old _ _ _ H). reflexivity.
  - intros n c Hc.
    change (String.get (30 + n)
              ("https://en.wikipedia.org/wiki/" ++ replace " " "_" destination)%string)
      with (String.get n (replace " " "_" destination)).
    rewrite replace_get, Hc. reflexivity.
  - intros n Hn.
    do 30 (destruct n as [|n]; [reflexivity|]). lia.
Qed.

(** X7: the overview is the fixed text [Unable to retrieve destination
    overview.] when the request raises, when the status is between 400 and
    599, and also when the page arrives without the content container;
    nothing is raised and the state is untouched. *)
Theorem overview_unable_on_failure
    (destination : string) (st : state) (e : exn) (r : response) :
  requests_get (wikipedia_url destination) = Raise e
  \/ (requests_get (wikipedia_url destination) = Ok r
      /\ 400 <= status_code r < 600)
  \/ (requests_get (wikipedia_url destination) = Ok r
      /\ mw_parser_output (BeautifulSoup (text r)) = None) ->
  _get_wikipedia_overview destination st
  = (Ok "Unable to retrieve destination overview."%string, st).
Proof.
  intros H. rewrite run_wikipedia. unfold overview_of.
  destruct H as [H|[[H Hs]|[H Hdiv]]]; rewrite H; [reflexivity| |].
  - unfold raise_for_status.
    replace ((400 <=? status_code r) && (status_code r <? 600)) with true; [reflexivity|].
    symmetry. apply andb_true_iff. split; [apply Z.leb_le | apply Z.ltb_lt]; lia.
  - destruct (raise_for_status r); [|reflexivity].
    unfold find_first_paragraph. rewrite Hdiv. reflexivity.
Qed.

(** X8: when the page arrives with a status outside 400 to 599 and has the
    content container, the overview is the text of its first paragraph
    without a class, or [No overview available.] when it has none. *)
Theorem overview_of_loaded_page
    (destination : string) (st : state) (r : response) (div : division) :
  requests_get (wikipedia_url destination) = Ok r ->
  status_code r < 400 \/ 600 <= status_code r ->
  mw_parser_output (BeautifulSoup (text r)) = Some div ->
  _get_wikipedia_overview destination st
  = (Ok (get (first_plain_paragraph div) "No overview available."%string), st).
Proof.
  intros Hr Hs Hdiv. rewrite run_wikipedia. unfold overview_of. rewrite Hr.
  unfold raise_for_status.
  replace ((400 <=? status_code r) && (status_code r <? 600)) with false.
  - unfold find_first_paragraph. rewrite Hdiv.
    destruct (first_plain_paragraph div); reflexivity.
  - symmetry. apply andb_false_iff.
    destruct Hs; [left; apply Z.leb_gt | right; apply Z.ltb_ge]; lia.
Qed.

(** X9: the images method never raises, makes one request to the images
    engine for [<destination> tourist attractions], leaves the object as it
    was, and returns at most six addresses, none of them empty. *)
Theorem images_at_most_six_nonempty (destination : string) (st : state) :
  exists images : list string,
    _get_destination_images destination st
    = (Ok images,
       mk_state (self st)
         (trace st ++ [EvGetDict (mk_params "google_images"
                                    (destination ++ " tourist attractions")%string
                                    (serpapi_key (self st)))]))
    /\ (List.length images <= 6)%nat
    /\ Forall (fun url => url <> EmptyString) images.
Proof.
  eexists. split; [apply run_images|]. split; [apply images_of_length|].
  unfold images_of. destruct (get_images_dict _); [apply originals_nonempty | constructor].
Qed.

(** X10: the six-entry cut is made before the entries without an address
    are dropped: whatever follows the first six entries of the answer is
    never returned, even when some of the six are dropped. *)
Theorem images_come_from_first_six
    (destination : string) (st : state) (head rest : list image_result) :
  get_images_dict (images_params (serpapi_key (self st)) destination)
  = Ok (mk_images (Some (head ++ rest))) ->
  List.length head = 6%nat ->
  outcome (_get_destination_images destination) st
  = Ok (originals (mk_images (Some head)))
  /\ (List.length (originals (mk_images (Some head)))
      = List.length (filter (fun img => truthy (original img)) head))%nat.
Proof.
  intros Hans Hhead. unfold outcome. rewrite run_images. cbn [fst].
  assert (Hcut : firstn 6 (head ++ rest) = head).
  { rewrite <- Hhead, firstn_app, Nat.sub_diag, firstn_all. apply app_nil_r. }
  unfold images_of. rewrite Hans. unfold originals, slice_to. cbn [get images_results].
  rewrite Hcut, <- Hhead, firstn_all. split; [reflexivity|].
  clear. induction head as [|img head IH]; simpl; [reflexivity|].
  destruct (truthy (original img)); simpl; rewrite IH; reflexivity.
Qed.

(** X11: the hotels method returns the first five entries of the answer,
    in the answer's order, each with all four keys, a missing key replaced
    by its default; so it returns min(5, n) hotels for n entries. *)
Theorem hotels_first_five_with_defaults
    (destination : string) (st : state) (results : hotels_dict) :
  get_hotels_dict (hotels_params (serpapi_key (self st)) destination) = Ok results ->
  exists hotels : list hotel,
    outcome (_get_destination_hotels destination) st = Ok hotels
    /\ hotels = map hotel_entry (firstn 5 (get (hotels_results results) []))
    /\ List.length hotels = Nat.min 5 (List.length (get (hotels_results results) [])).
Proof.
  intros Hans. unfold outcome. rewrite run_hotels. cbn [fst].
  unfold hotels_of. rewrite Hans. eexists. split; [reflexivity|]. split; [reflexivity|].
  rewrite length_map, length_firstn. reflexivity.
Qed.

(** X12: [fetch_destination_info] never raises and never returns the
    ['error'] dict: each of its four steps catches its own errors, so the
    answer always has the overview, at most six images and at most five
    hotels, the ones the three methods return on the same object. *)
Theorem fetch_never_reports_error (destination : string) (st : state) :
  exists (overview : string) (images : list string) (hotels : list hotel),
    outcome (fetch_destination_info destination) st = Ok (Info overview images hotels)
    /\ outcome (_get_wikipedia_overview destination) st = Ok overview
    /\ outcome (_get_destination_images destination) st = Ok images
    /\ outcome (_get_destination_hotels destination) st = Ok hotels
    /\ (List.length images <= 6)%nat
    /\ (List.length hotels <= 5)%nat.
Proof.
  do 3 eexists. unfold outcome.
  rewrite run_fetch, run_wikipedia, run_images, run_hotels. cbn [fst].
  repeat split; [apply images_of_length | apply hotels_of_length].
Qed.

Lemma fetch_self (destination : string) (st : state) :
  self (after (fetch_destination_info destination) st)
  = self (after (_build_knowledge_base destination) st).
Proof. unfold after. rewrite run_fetch, run_build. cbn [snd]. apply built_self. Qed.

(** X13: what [fetch_destination_info] does to the object is what the build
    for the destination does, and it makes four requests to the search
    API, in this order: images, hotels, attractions, restaurants. *)
Theorem fetch_builds_and_searches_in_order (destination : string) (st : state) :
  self (after (fetch_destination_info destination) st)
  = self (after (_build_knowledge_base destination) st)
  /\ get_dict_calls (trace (after (fetch_destination_info destination) st))
     = get_dict_calls (trace st)
       ++ [images_params (serpapi_key (self st)) destination;
           hotels_params (serpapi_key (self st)) destination;
           attractions_params (serpapi_key (self st)) destination;
           restaurants_params (serpapi_key (self st)) destination].
Proof.
  split; [apply fetch_self|].
  unfold after. rewrite run_fetch. cbn [snd].
  - unfold built. cbn [self trace].
    destruct (encode _) as [[|v x]|err]; cbn [trace]; rewrite !get_dict_calls_app; simpl;
      rewrite <- !app_assoc; reflexivity.
Qed.

(** X14: when the images request and the hotels request both raise, the
    answer still carries the overview, with no image and no hotel, and the
    knowledge base is still the text gathered for the destination. *)
Theorem fetch_survives_failing_searches
    (destination : string) (st : state) (e1 e2 : exn) :
  get_images_dict (images_params (serpapi_key (self st)) destination) = Raise e1 ->
  get_hotels_dict (hotels_params (serpapi_key (self st)) destination) = Raise e2 ->
  exists overview : string,
    outcome (fetch_destination_info destination) st = Ok (Info overview [] [])
    /\ outcome (_get_wikipedia_overview destination) st = Ok overview
    /\ knowledge_base (self (after (fetch_destination_info destination) st))
       = gathered (serpapi_key (self st)) destination.
Proof.
  intros Himg Hhot. eexists. unfold outcome, after.
  rewrite run_fetch, run_wikipedia. cbn [fst snd].
  unfold images_of, hotels_of. rewrite Himg, Hhot.
  repeat split. unfold built. cbn [self serpapi_key].
  destruct (encode _) as [[|v x]|err]; reflexivity.
Qed.

End RetrieverProperties.

(** ** Properties of [TravelPlannerAssistant] *)

Section AssistantProperties.
Context {S : Services}.

(** The first required key the prompt reads that the dict does not have,
    as far as the reading gets: it stops at an ['interests'] that cannot
    be joined. *)
Definition first_missing (p : Pref.t) : option string :=
  match Pref.destination p with None => Some "destination"%string | Some _ =>
  match Pref.duration p with None => Some "duration"%string | Some _ =>
  match Pref.travel_style p with None => Some "travel_style"%string | Some _ =>
  match Pref.interests p with
  | None => Some "interests"%string | Some NoneValue => None | Some (Chosen _) =>
  match Pref.budget p with None => Some "budget"%string | Some _ =>
  match Pref.travelers p with None => Some "travelers"%string | Some _ =>
  match Pref.travel_month p with None => Some "travel_month"%string | Some _ =>
  None end end end end end end end.

(** What a chat call yields to its caller: the first choice, or the text
    of what went wrong. *)
Definition first_choice (r : result chat_response) : result string :=
  match r with
  | Ok resp => getitem (choices resp) 0
  | Raise e => Raise e
  end.

Definition itinerary_request
    (destination duration travel_style : string) (interests : list string)
    (budget travelers travel_month : string)
    (specific_activities dietary_restrictions mobility_considerations : option string)
  : chat_request :=
  mixtral itinerary_system_prompt
    (itinerary_user_prompt destination duration travel_style interests budget travelers
       travel_month specific_activities dietary_restrictions mobility_considerations)
    4000.

Definition query_request (query destination relevant_info : string) : chat_request :=
  mixtral query_system_prompt (query_user_prompt query destination relevant_info) 2000.

Lemma run_itinerary
    (key destination duration travel_style : string) (interests : list string)
    (budget travelers travel_month : string) (a1 a2 a3 : option string) (st : state) :
  generate_travel_itinerary key
    (Pref.mk (Some destination) (Some duration) (Some travel_style)
             (Some (Chosen interests))
             (Some budget) (Some travelers) (Some travel_month) a1 a2 a3) st
  = (Ok match first_choice
                (chat_completions_create key
                   (itinerary_request destination duration travel_style interests budget
                      travelers travel_month a1 a2 a3)) with
        | Ok text => text
        | Raise e => ("Error generating itinerary: " ++ e)%string
        end, st).
Proof.
  cbv beta iota zeta delta [generate_travel_itinerary bind lift item iterate try_except ret
    first_choice itinerary_request
    Pref.destination Pref.duration Pref.travel_style Pref.interests Pref.budget
    Pref.travelers Pref.travel_month Pref.specific_activities Pref.dietary_restrictions
    Pref.mobility_considerations].
  destruct (chat_completions_create _ _) as [resp|e]; [|reflexivity].
  destruct (getitem (choices resp) 0); reflexivity.
Qed.

(** X15: with the seven keys the prompt reads present and a list of strings
    under ['interests'], the itinerary method never raises and leaves the
    retriever untouched, whatever the chat endpoint does. *)
Theorem itinerary_with_required_keys_never_raises
    (key destination duration travel_style : string) (interests : list string)
    (budget travelers travel_month : string) (a1 a2 a3 : option string) (st : state) :
  exists text : string,
    generate_travel_itinerary key
      (Pref.mk (Some destination) (Some duration) (Some travel_style)
             (Some (Chosen interests))
               (Some budget) (Some travelers) (Some travel_month) a1 a2 a3) st
    = (Ok text, st).
Proof. eexists. apply run_itinerary. Qed.

(** X16: the prompt is built before the [try]: when a required key is
    absent the method raises the [KeyError] of the first absent key, in
    the order the prompt reads them, and the chat endpoint's answer plays
    no part. *)
Theorem itinerary_missing_key_raises
    (key : string) (user_preferences : Pref.t) (st : state) (missing : string) :
  first_missing user_preferences = Some missing ->
  generate_travel_itinerary key user_preferences st = (Raise (KeyError missing), st).
Proof.
  destruct user_preferences as [d du ts i b t m a1 a2 a3].
  cbv beta iota zeta delta [first_missing generate_travel_itinerary bind lift item iterate
    Pref.destination Pref.duration Pref.travel_style Pref.interests Pref.budget
    Pref.travelers Pref.travel_month].
  destruct d; [|intros [= <-]; reflexivity].
  destruct du; [|intros [= <-]; reflexivity].
  destruct ts; [|intros [= <-]; reflexivity].
  destruct i as [[items|]|]; [|discriminate|intros [= <-]; reflexivity].
  destruct b; [|intros [= <-]; reflexivity].
  destruct t; [|intros [= <-]; reflexivity].
  destruct m; [|intros [= <-]; reflexivity].
  discriminate.
Qed.

(** X17: when the chat call raises, or answers without any choice, the
    itinerary is the text [Error generating itinerary: ] followed by the
    error's message. *)
Theorem itinerary_reports_chat_failure
    (key destination duration travel_style : string) (interests : list string)
    (budget travelers travel_month : string) (a1 a2 a3 : option string)
    (st : state) (e : exn) :
  chat_completions_create key
    (itinerary_request destination duration travel_style interests budget travelers
       travel_month a1 a2 a3) = Raise e
  \/ (chat_completions_create key
        (itinerary_request destination duration travel_style interests budget travelers
           travel_month a1 a2 a3) = Ok (mk_chat_response [])
      /\ e = IndexError) ->
  outcome (generate_travel_itinerary key
             (Pref.mk (Some destination) (Some duration) (Some travel_style)
             (Some (Chosen interests))
                      (Some budget) (Some travelers) (Some travel_month) a1 a2 a3)) st
  = Ok ("Error generating itinerary: " ++ e)%string.
Proof.
  intros H. unfold outcome. rewrite run_itinerary. cbn [fst].
  destruct H as [H|[H ->]]; rewrite H; reflexivity.
Qed.

(** X18: when the chat call answers, the itinerary is the content of its
    first choice, for the request made of the two prompts, the model name
    and 4000 tokens. *)
Theorem itinerary_is_first_choice
    (key destination duration travel_style : string) (interests : list string)
    (budget travelers travel_month : string) (a1 a2 a3 : option string)
    (st : state) (answer : string) (others : list string) :
  chat_completions_create key
    (mk_chat_request "mixtral-8x7b-32768"
       [mk_message "system" itinerary_system_prompt;
        mk_message "user"
          (itinerary_user_prompt destination duration travel_style interests budget
             travelers travel_month a1 a2 a3)]
       4000)
  = Ok (mk_chat_response (answer :: others)) ->
  outcome (generate_travel_itinerary key
             (Pref.mk (Some destination) (Some duration) (Some travel_style)
             (Some (Chosen interests))
                      (Some budget) (Some travelers) (Some travel_month) a1 a2 a3)) st
  = Ok answer.
Proof.
  intros H. unfold outcome. rewrite run_itinerary. cbn [fst].
  unfold itinerary_request, mixtral. rewrite H. reflexivity.
Qed.

(** X26: the join of ['interests'] is made before the [try]: with [None]
    under ['interests'] and the three keys read before it present, the
    method raises the [TypeError] of the join, whatever the other keys
    hold and whatever the chat endpoint does, and leaves the retriever
    untouched. *)
Theorem itinerary_unjoinable_interests_raises
    (key destination duration travel_style : string)
    (budget travelers travel_month a1 a2 a3 : option string) (st : state) :
  generate_travel_itinerary key
    (Pref.mk (Some destination) (Some duration) (Some travel_style) (Some NoneValue)
             budget travelers travel_month a1 a2 a3) st
  = (Raise "can only join an iterable"%string, st).
Proof.
  cbv beta iota zeta delta [generate_travel_itinerary bind lift item iterate
    Pref.destination Pref.duration Pref.travel_style Pref.interests].
  reflexivity.
Qed.

(** The retrieval step of a query, as its caller sees it. *)
Lemma query_step (query : string) (st : state) :
  exists relevant_info : string,
    retrieve_relevant_info query st
    = (Ok relevant_info, after (retrieve_relevant_info query) st)
    /\ self (after (retrieve_relevant_info query) st) = self st
    /\ get_dict_calls (trace (after (retrieve_relevant_info query) st))
       = get_dict_calls (trace st).
Proof.
  unfold after. rewrite run_query.
  destruct (encode [query]) as [x|e].
  - destruct (getitem _ 0) as [row|e];
      [destruct (mapM _ row _) as [[infos|e] st']|];
      eexists; (split; [reflexivity|]); (split; [reflexivity|]);
      cbn [snd searched trace]; rewrite !get_dict_calls_app; simpl;
      rewrite !app_nil_r; reflexivity.
  - eexists. split; [reflexivity|]. split; [reflexivity|].
    cbn [snd trace]. rewrite get_dict_calls_app. simpl. apply app_nil_r.
Qed.

Lemma run_handle (key query destination relevant_info : string) (st st1 : state) :
  retrieve_relevant_info query st = (Ok relevant_info, st1) ->
  handle_user_query key query destination st
  = match chat_completions_create key (query_request query destination relevant_info) with
    | Raise e => (Ok (("Error handling query: " ++ e)%string, []), st1)
    | Ok resp =>
        (match getitem (choices resp) 0 with
         | Ok answer =>
             Ok (answer,
                 images_of (images_params (serpapi_key (self st1))
                              (destination ++ " " ++ query)%string))
         | Raise e => Ok (("Error handling query: " ++ e)%string, [])
         end,
         mk_state (self st1)
           (trace st1 ++ [EvGetDict (images_params (serpapi_key (self st1))
                                       (destination ++ " " ++ query)%string)]))
    end.
Proof.
  intros Hq. unfold handle_user_query, try_except.
  unfold bind at 1. rewrite Hq.
  unfold bind at 1. unfold lift at 1. fold (query_request query destination relevant_info).
  destruct (chat_completions_create _ _) as [resp|e]; [|reflexivity].
  unfold bind at 1. rewrite run_images.
  unfold bind at 1. unfold lift at 1.
  destruct (getitem (choices resp) 0); reflexivity.
Qed.

End AssistantProperties.

Section HandlerProperties.
Context {S : Services}.

Lemma query_on_empty_index (query : string) (st : state) (x : list vec) :
  index (self st) = [] ->
  knowledge_base (self st) = [] ->
  encode [query] = Ok x ->
  outcome (retrieve_relevant_info query) st
  = Ok "Error retrieving information: list index out of range"%string.
Proof.
  intros Hix Hkb Hx. unfold outcome. rewrite run_query, Hx.
  destruct (encode_one_row _ _ Hx) as [v ->].
  rewrite Hix. cbn [Faiss.search map]. unfold Faiss.search_row.
  rewrite nearest_empty. cbn [firstn map]. unfold Faiss.pad_labels. cbn [List.length Nat.sub repeat app].
  change (getitem [[-1; -1; -1]] 0) with (Ok (A:=list Z) [-1; -1; -1]). cbv iota.
  rewrite comprehension_cons. cbn [searched self]. rewrite Hkb. reflexivity.
Qed.

(** X19: handling a query never raises and never changes the retriever's
    key, index or knowledge base; it returns a text and at most six
    images. *)
Theorem handle_never_raises_nor_mutates (key query destination : string) (st : state) :
  exists (answer : string) (images : list string),
    outcome (handle_user_query key query destination) st = Ok (answer, images)
    /\ self (after (handle_user_query key query destination) st) = self st
    /\ (List.length images <= 6)%nat.
Proof.
  destruct (query_step query st) as [info [Hq [Hself _]]].
  unfold outcome, after. rewrite (run_handle key query destination info st _ Hq).
  destruct (chat_completions_create _ _) as [resp|e].
  - destruct (getitem (choices resp) 0) as [answer|e]; do 2 eexists;
      (split; [reflexivity|]); (split; [exact Hself|]);
      [apply images_of_length | simpl; lia].
  - do 2 eexists. split; [reflexivity|]. split; [exact Hself|]. simpl; lia.
Qed.

(** X20: when the chat call raises, the answer is the text [Error handling
    query: ] followed by the error's message, with no image, and no
    request is made to the search API. *)
Theorem handle_chat_failure_skips_images
    (key query destination relevant_info : string) (st : state) (e : exn) :
  outcome (retrieve_relevant_info query) st = Ok relevant_info ->
  chat_completions_create key (query_request query destination relevant_info) = Raise e ->
  outcome (handle_user_query key query destination) st
  = Ok (("Error handling query: " ++ e)%string, [])
  /\ get_dict_calls (trace (after (handle_user_query key query destination) st))
     = get_dict_calls (trace st).
Proof.
  intros Hinfo Hchat.
  destruct (query_step query st) as [info [Hq [_ Hcalls]]].
  unfold outcome in Hinfo. rewrite Hq in Hinfo. injection Hinfo as ->.
  unfold outcome, after. rewrite (run_handle key query destination _ st _ Hq), Hchat.
  split; [reflexivity | exact Hcalls].
Qed.

(** X21: when the chat call answers, the result is the content of its
    first choice together with the images found for [<destination>
    <query>], and that images request is the only request made to the
    search API. *)
Theorem handle_answer_and_images
    (key query destination relevant_info answer : string) (others : list string)
    (st : state) :
  outcome (retrieve_relevant_info query) st = Ok relevant_info ->
  chat_completions_create key (query_request query destination relevant_info)
  = Ok (mk_chat_response (answer :: others)) ->
  exists images : list string,
    outcome (handle_user_query key query destination) st = Ok (answer, images)
    /\ outcome (_get_destination_images (destination ++ " " ++ query)%string) st = Ok images
    /\ get_dict_calls (trace (after (handle_user_query key query destination) st))
       = get_dict_calls (trace st)
         ++ [mk_params "google_images"
               ((destination ++ " " ++ query) ++ " tourist attractions")%string
               (serpapi_key (self st))].
Proof.
  intros Hinfo Hchat.
  destruct (query_step query st) as [info [Hq [Hself Hcalls]]].
  unfold outcome in Hinfo. rewrite Hq in Hinfo. injection Hinfo as ->.
  eexists. unfold outcome, after.
  rewrite (run_handle key query destination _ st _ Hq), Hchat, run_images.
  cbn [fst snd choices trace]. rewrite Hself.
  split; [reflexivity|]. split; [reflexivity|].
  rewrite get_dict_calls_app, Hcalls. reflexivity.
Qed.

(** X22: before any build, with nothing in the index and in the knowledge
    base, handling a query still asks the chat endpoint: the request
    carries the retrieval's error text as the relevant information, and
    the answer to that request is returned. *)
Theorem handle_before_any_build
    (key query destination answer : string) (others : list string)
    (st : state) (x : list vec) :
  index (self st) = [] ->
  knowledge_base (self st) = [] ->
  encode [query] = Ok x ->
  chat_completions_create key
    (query_request query destination
       "Error retrieving information: list index out of range")
  = Ok (mk_chat_response (answer :: others)) ->
  exists images : list string,
    outcome (handle_user_query key query destination) st = Ok (answer, images)
    /\ outcome (_get_destination_images (destination ++ " " ++ query)%string) st = Ok images.
Proof.
  intros Hix Hkb Hx Hchat.
  pose proof (query_on_empty_index query st x Hix Hkb Hx) as Hinfo.
  destruct (query_step query st) as [info [Hq [Hself _]]].
  unfold outcome in Hinfo. rewrite Hq in Hinfo. injection Hinfo as ->.
  eexists. unfold outcome.
  rewrite (run_handle key query destination _ st _ Hq), Hchat, run_images.
  cbn [fst choices]. rewrite Hself. split; reflexivity.
Qed.

(** X23: the images are requested before the first choice is read: when
    the chat call answers without any choice, the images request has been
    made, and the result is the error text with no image. *)
Theorem handle_without_choice_discards_images
    (key query destination relevant_info : string) (st : state) :
  outcome (retrieve_relevant_info query) st = Ok relevant_info ->
  chat_completions_create key (query_request query destination relevant_info)
  = Ok (mk_chat_response []) ->
  outcome (handle_user_query key query destination) st
  = Ok ("Error handling query: list index out of range"%string, [])
  /\ get_dict_calls (trace (after (handle_user_query key query destination) st))
     = get_dict_calls (trace st)
       ++ [images_params (serpapi_key (self st)) (destination ++ " " ++ query)%string].
Proof.
  intros Hinfo Hchat.
  destruct (query_step query st) as [info [Hq [Hself Hcalls]]].
  unfold outcome in Hinfo. rewrite Hq in Hinfo. injection Hinfo as ->.
  unfold outcome, after. rewrite (run_handle key query destination _ st _ Hq), Hchat.
  cbn [fst snd choices trace]. rewrite Hself.
  split; [reflexivity|]. rewrite get_dict_calls_app, Hcalls. reflexivity.
Qed.

Lemma run_trip
    (key destination duration travel_style : string) (interests : list string)
    (budget travelers travel_month : string) (st : state) :
  generate_personalized_trip key destination duration travel_style interests budget
    travelers travel_month st
  = (Ok (match first_choice
                 (chat_completions_create key
                    (itinerary_request destination duration travel_style interests budget
                       travelers travel_month None None None)) with
         | Ok text => text
         | Raise e => ("Error generating itinerary: " ++ e)%string
         end,
         images_of (images_params (serpapi_key (self st)) destination)),
     after (fetch_destination_info destination) st).
Proof.
  unfold generate_personalized_trip. cbv zeta.
  unfold bind at 1. rewrite run_itinerary.
  unfold bind at 1, after. rewrite run_fetch. reflexivity.
Qed.

(** X24: a personalized trip never raises: it returns the itinerary text of
    [generate_travel_itinerary] and the images of the destination, and
    what it does to the retriever is what the build for the destination
    does, whatever the chat endpoint answered. *)
Theorem trip_never_raises_and_builds
    (key destination duration travel_style : string) (interests : list string)
    (budget travelers travel_month : string) (st : state) :
  exists (itinerary : string) (images : list string),
    outcome (generate_personalized_trip key destination duration travel_style interests
               budget travelers travel_month) st
    = Ok (itinerary, images)
    /\ outcome (generate_travel_itinerary key
                  (Pref.mk (Some destination) (Some duration) (Some travel_style)
                           (Some (Chosen interests)) (Some budget) (Some travelers)
                           (Some travel_month) None None None)) st
       = Ok itinerary
    /\ outcome (_get_destination_images destination) st = Ok images
    /\ self (after (generate_personalized_trip key destination duration travel_style
                      interests budget travelers travel_month) st)
       = self (after (_build_knowledge_base destination) st).
Proof.
  do 2 eexists. unfold outcome. rewrite run_trip, run_itinerary, run_images. cbn [fst].
  split; [reflexivity|]. split; [reflexivity|]. split; [reflexivity|].
  unfold after at 1. rewrite run_trip. cbn [snd].
  apply fetch_self.
Qed.

(** X25: when the chat call raises, the trip still returns: the itinerary
    is the error text, the images are those of the destination, and the
    knowledge base is the text gathered for the destination. *)
Theorem trip_survives_chat_failure
    (key destination duration travel_style : string) (interests : list string)
    (budget travelers travel_month : string) (st : state) (e : exn) :
  chat_completions_create key
    (itinerary_request destination duration travel_style interests budget travelers
       travel_month None None None) = Raise e ->
  exists images : list string,
    outcome (generate_personalized_trip key destination duration travel_style interests
               budget travelers travel_month) st
    = Ok (("Error generating itinerary: " ++ e)%string, images)
    /\ outcome (_get_destination_images destination) st = Ok images
    /\ knowledge_base (self (after (generate_personalized_trip key destination duration
                                      travel_style interests budget travelers travel_month)
                               st))
       = gathered (serpapi_key (self st)) destination.
Proof.
  intros Hchat. eexists. unfold outcome. rewrite run_trip, run_images, Hchat. cbn [fst].
  split; [reflexivity|]. split; [reflexivity|].
  unfold after at 1. rewrite run_trip. cbn [snd].
  rewrite fetch_self. apply build_knowledge_base_is_gathered.
Qed.

End HandlerProperties.

(** ** The service theorems on the scripted services *)

Section ServiceScenarios.
Local Open Scope string_scope.
#[local] Existing Instance Script.services.

Let st0 : state := fresh "key".
Let kyoto : state := after (_build_knowledge_base "Kyoto") st0.

Lemma overview_unable_on_failure_witness :
  (requests_get (wikipedia_url "Atlantis") = Raise "unused"
   \/ (requests_get (wikipedia_url "Atlantis") = Ok (mk_response 404 "missing")
       /\ (400 <= status_code (mk_response 404 "missing") < 600)%Z)
   \/ (requests_get (wikipedia_url "Atlantis") = Ok (mk_response 404 "missing")
       /\ mw_parser_output (BeautifulSoup (text (mk_response 404 "missing"))) = None))
  /\ _get_wikipedia_overview "Atlantis" st0
     = (Ok "Unable to retrieve destination overview.", st0).
Proof.
  assert (H : requests_get (wikipedia_url "Atlantis") = Raise "unused"
              \/ (requests_get (wikipedia_url "Atlantis") = Ok (mk_response 404 "missing")
                  /\ (400 <= status_code (mk_response 404 "missing") < 600)%Z)
              \/ (requests_get (wikipedia_url "Atlantis") = Ok (mk_response 404 "missing")
                  /\ mw_parser_output (BeautifulSoup (text (mk_response 404 "missing")))
                     = None)).
  { right. left. split; [reflexivity | split; [discriminate | reflexivity]]. }
  split; [exact H|].
  exact (overview_unable_on_failure "Atlantis" st0 "unused" (mk_response 404 "missing") H).
Defined.

Lemma overview_of_loaded_page_witness :
  requests_get (wikipedia_url "New York") = Ok (mk_response 200 "bare")
  /\ ((status_code (mk_response 200 "bare") < 400)%Z
      \/ (600 <= status_code (mk_response 200 "bare"))%Z)
  /\ mw_parser_output (BeautifulSoup (text (mk_response 200 "bare")))
     = Some (mk_division None)
  /\ _get_wikipedia_overview "New York" st0 = (Ok "No overview available.", st0).
Proof.
  split; [reflexivity|]. split; [left; reflexivity|]. split; [reflexivity|].
  exact (overview_of_loaded_page "New York" st0 (mk_response 200 "bare") (mk_division None)
           eq_refl (or_introl eq_refl) eq_refl).
Defined.

Lemma images_come_from_first_six_witness :
  get_images_dict (images_params (serpapi_key (self st0)) "Kyoto")
  = Ok (mk_images (Some (Script.six ++ [mk_image (Some "https://img/7.jpg")])%list))
  /\ List.length Script.six = 6%nat
  /\ outcome (_get_destination_images "Kyoto") st0
     = Ok ["https://img/1.jpg"; "https://img/4.jpg"; "https://img/6.jpg"]
  /\ List.length (originals (mk_images (Some Script.six))) = 3%nat.
Proof.
  split; [reflexivity|]. split; [reflexivity|].
  exact (images_come_from_first_six "Kyoto" st0 Script.six
           [mk_image (Some "https://img/7.jpg")] eq_refl eq_refl).
Defined.

Lemma hotels_first_five_with_defaults_witness :
  get_hotels_dict (hotels_params (serpapi_key (self st0)) "Kyoto")
  = Ok (mk_hotels (Some [Script.forum; Script.forum; Script.forum;
                         Script.forum; Script.forum; Script.forum]))
  /\ exists hotels : list hotel,
      outcome (_get_destination_hotels "Kyoto") st0 = Ok hotels
      /\ hotels
         = repeat (mk_hotel (JString "Hotel Forum") (JNumber "4.5") (JString "N/A")
                            (JString "No description available")) 5
      /\ List.length hotels = 5%nat.
Proof.
  split; [reflexivity|].
  exact (hotels_first_five_with_defaults "Kyoto" st0 _ eq_refl).
Defined.

Lemma fetch_survives_failing_searches_witness :
  get_images_dict (images_params (serpapi_key (self st0)) "Rome") = Raise "HTTP 429"
  /\ get_hotels_dict (hotels_params (serpapi_key (self st0)) "Rome") = Raise "HTTP 429"
  /\ exists overview : string,
      outcome (fetch_destination_info "Rome") st0 = Ok (Info overview [] [])
      /\ outcome (_get_wikipedia_overview "Rome") st0 = Ok overview
      /\ knowledge_base (self (after (fetch_destination_info "Rome") st0)) = ["Colosseum"].
Proof.
  split; [reflexivity|]. split; [reflexivity|].
  exact (fetch_survives_failing_searches "Rome" st0 "HTTP 429" "HTTP 429" eq_refl eq_refl).
Defined.

Let no_duration : Pref.t :=
  Pref.mk (Some "Kyoto") None (Some "Leisure") (Some (Chosen ["Food"])) (Some "Budget (<$1000)")
          (Some "Solo") (Some "May") None None None.

Lemma itinerary_missing_key_raises_witness :
  first_missing no_duration = Some "duration"
  /\ generate_travel_itinerary "live" no_duration st0 = (Raise "'duration'", st0).
Proof.
  split; [reflexivity|].
  exact (itinerary_missing_key_raises "live" no_duration st0 "duration" eq_refl).
Defined.

Lemma itinerary_reports_chat_failure_witness :
  (chat_completions_create "dead"
     (itinerary_request "Kyoto" "3" "Leisure" ["Food"] "Budget (<$1000)" "Solo" "May"
        None None None) = Raise "401 Unauthorized"
   \/ (chat_completions_create "dead"
         (itinerary_request "Kyoto" "3" "Leisure" ["Food"] "Budget (<$1000)" "Solo" "May"
            None None None) = Ok (mk_chat_response [])
       /\ "401 Unauthorized" = IndexError))
  /\ outcome (generate_travel_itinerary "dead"
                (Pref.mk (Some "Kyoto") (Some "3") (Some "Leisure") (Some (Chosen ["Food"]))
                         (Some "Budget (<$1000)") (Some "Solo") (Some "May")
                         None None None)) st0
     = Ok "Error generating itinerary: 401 Unauthorized".
Proof.
  split; [left; reflexivity|].
  exact (itinerary_reports_chat_failure "dead" "Kyoto" "3" "Leisure" ["Food"]
           "Budget (<$1000)" "Solo" "May" None None None st0 "401 Unauthorized"
           (or_introl eq_refl)).
Defined.

Lemma itinerary_is_first_choice_witness :
  chat_completions_create "live"
    (mk_chat_request "mixtral-8x7b-32768"
       [mk_message "system" itinerary_system_prompt;
        mk_message "user"
          (itinerary_user_prompt "Kyoto" "3" "Leisure" ["Food"] "Budget (<$1000)" "Solo"
             "May" None None None)]
       4000)
  = Ok (mk_chat_response ["Visit the temples."])
  /\ outcome (generate_travel_itinerary "live"
                (Pref.mk (Some "Kyoto") (Some "3") (Some "Leisure") (Some (Chosen ["Food"]))
                         (Some "Budget (<$1000)") (Some "Solo") (Some "May")
                         None None None)) st0
     = Ok "Visit the temples.".
Proof.
  split; [reflexivity|].
  exact (itinerary_is_first_choice "live" "Kyoto" "3" "Leisure" ["Food"]
           "Budget (<$1000)" "Solo" "May" None None None st0 "Visit the temples." []
           eq_refl).
Defined.

Let found : string := join newline ["Gion"; "Kinkaku-ji"; "Fushimi Inari"].

Lemma handle_chat_failure_skips_images_witness :
  outcome (retrieve_relevant_info "tea") kyoto = Ok found
  /\ chat_completions_create "dead" (query_request "tea" "Kyoto" found)
     = Raise "401 Unauthorized"
  /\ outcome (handle_user_query "dead" "tea" "Kyoto") kyoto
     = Ok ("Error handling query: 401 Unauthorized", [])
  /\ get_dict_calls (trace (after (handle_user_query "dead" "tea" "Kyoto") kyoto))
     = get_dict_calls (trace kyoto).
Proof.
  split; [reflexivity|]. split; [reflexivity|].
  exact (handle_chat_failure_skips_images "dead" "tea" "Kyoto" found kyoto
           "401 Unauthorized" eq_refl eq_refl).
Defined.

Lemma handle_answer_and_images_witness :
  outcome (retrieve_relevant_info "tea") kyoto = Ok found
  /\ chat_completions_create "live" (query_request "tea" "Kyoto" found)
     = Ok (mk_chat_response ["Visit the temples."])
  /\ exists images : list string,
      outcome (handle_user_query "live" "tea" "Kyoto") kyoto
      = Ok ("Visit the temples.", images)
      /\ outcome (_get_destination_images "Kyoto tea") kyoto = Ok images
      /\ get_dict_calls (trace (after (handle_user_query "live" "tea" "Kyoto") kyoto))
         = (get_dict_calls (trace kyoto)
            ++ [mk_params "google_images" "Kyoto tea tourist attractions" "key"])%list.
Proof.
  split; [reflexivity|]. split; [reflexivity|].
  exact (handle_answer_and_images "live" "tea" "Kyoto" found "Visit the temples." []
           kyoto eq_refl eq_refl).
Defined.

Lemma handle_before_any_build_witness :
  index (self st0) = []
  /\ knowledge_base (self st0) = []
  /\ encode ["tea"] = Ok [[3%Z]]
  /\ chat_completions_create "live"
       (query_request "tea" "Kyoto" "Error retrieving information: list index out of range")
     = Ok (mk_chat_response ["Visit the temples."])
  /\ exists images : list string,
      outcome (handle_user_query "live" "tea" "Kyoto") st0
      = Ok ("Visit the temples.", images)
      /\ outcome (_get_destination_images "Kyoto tea") st0 = Ok images.
Proof.
  split; [reflexivity|]. split; [reflexivity|]. split; [reflexivity|].
  split; [reflexivity|].
  exact (handle_before_any_build "live" "tea" "Kyoto" "Visit the temples." [] st0
           [[3%Z]] eq_refl eq_refl eq_refl eq_refl).
Defined.

Lemma handle_without_choice_discards_images_witness :
  outcome (retrieve_relevant_info "tea") kyoto = Ok found
  /\ chat_completions_create "mute" (query_request "tea" "Kyoto" found)
     = Ok (mk_chat_response [])
  /\ outcome (handle_user_query "mute" "tea" "Kyoto") kyoto
     = Ok ("Error handling query: list index out of range", [])
  /\ get_dict_calls (trace (after (handle_user_query "mute" "tea" "Kyoto") kyoto))
     = (get_dict_calls (trace kyoto)
        ++ [images_params (serpapi_key (self kyoto)) "Kyoto tea"])%list.
Proof.
  split; [reflexivity|]. split; [reflexivity|].
  exact (handle_without_choice_discards_images "mute" "tea" "Kyoto" found kyoto
           eq_refl eq_refl).
Defined.

Lemma trip_survives_chat_failure_witness :
  chat_completions_create "dead"
    (itinerary_request "Kyoto" "3" "Leisure" ["Food"] "Budget (<$1000)" "Solo" "May"
       None None None) = Raise "401 Unauthorized"
  /\ exists images : list string,
      outcome (generate_personalized_trip "dead" "Kyoto" "3" "Leisure" ["Food"]
                 "Budget (<$1000)" "Solo" "May") st0
      = Ok ("Error generating itinerary: 401 Unauthorized", images)
      /\ outcome (_get_destination_images "Kyoto") st0 = Ok images
      /\ knowledge_base (self (after (generate_personalized_trip "dead" "Kyoto" "3" "Leisure"
                                        ["Food"] "Budget (<$1000)" "Solo" "May") st0))
         = ["Kinkaku-ji"; "Fushimi Inari"; "Gion"; "Nishiki Market"].
Proof.
  split; [reflexivity|].
  exact (trip_survives_chat_failure "dead" "Kyoto" "3" "Leisure" ["Food"]
           "Budget (<$1000)" "Solo" "May" st0 "401 Unauthorized" eq_refl).
Defined.

End ServiceScenarios.
